(** * Dynamic Company Services Chatbot: a shallow embedding

    The three Python modules of the repository are embedded as pure
    functions over an explicit world:

    - [external_info_retriever.py]  ->  [Module external_info_retriever]
    - [llm_rag_service.py]          ->  [Module llm_rag_service]
    - [app.py]                      ->  [Module app]

    Every third-party capability the code calls (Google Custom Search,
    the embedding model, the Chroma vector store, the chat model, the
    extraction chain, [json.loads]) is a field of [Collaborators]: an
    oracle that reads and updates an abstract process-wide library state
    and either returns a value or raises a Python exception.  The code of
    the repository itself is written out in a small state-and-exception
    monad whose state also records, in order, every observable call.

    Conventions.
    - A Python [str] is a [string]; each [ascii] stands for one code point
      below 256.
    - A value read with [os.getenv] is an [option string].
    - A fault is an instance of a subclass of Python's [Exception]: those
      are the exceptions an [except Exception] clause catches. *)

From Stdlib Require Import Ascii String ZArith QArith Lia.
From stdpp Require Import base option list strings pretty gmap.

Local Open Scope string_scope.
Local Open Scope list_scope.

(** ** Python values used by the three modules *)

(** The newline character of the Python literals. *)
Definition nl : string := String "010"%char EmptyString.

(** [not v] for [v : Optional[str]]: [None] and the empty string are falsy. *)
Definition py_not (v : option string) : bool :=
  match v with
  | None => true
  | Some s => if decide (s = "") then true else false
  end.

(** Truthiness of an [Optional[str]], as tested by [if v:] and [a and b]. *)
Definition truthy (v : option string) : bool := negb (py_not v).

(** [v == "lit"] for [v : Optional[str]]. *)
Definition py_eq (v : option string) (lit : string) : bool :=
  match v with
  | Some s => if decide (s = lit) then true else false
  | None => false
  end.

(** [str(v)] as an f-string prints an [Optional[str]]. *)
Definition py_str (v : option string) : string :=
  match v with
  | Some s => s
  | None => "None"
  end.

(** [str.isspace] on one code point below 256. *)
Definition is_space (c : ascii) : bool :=
  let n := nat_of_ascii c in
  ((9 <=? n)%nat && (n <=? 13)%nat)
  || ((28 <=? n)%nat && (n <=? 32)%nat)
  || (n =? 133)%nat || (n =? 160)%nat.

Fixpoint lstrip (s : string) : string :=
  match s with
  | EmptyString => EmptyString
  | String c s' => if is_space c then lstrip s' else s
  end.

Fixpoint rstrip (s : string) : string :=
  match s with
  | EmptyString => EmptyString
  | String c s' =>
      match rstrip s' with
      | EmptyString => if is_space c then EmptyString else String c EmptyString
      | r => String c r
      end
  end.

(** [s.strip()] *)
Definition strip (s : string) : string := rstrip (lstrip s).

(** [s.replace(old, new)] for a non-empty [old]: occurrences are replaced
    from left to right and do not overlap; [skip] counts the characters of
    a match that are still to be dropped. *)
Fixpoint replace_from (old new : string) (skip : nat) (s : string) : string :=
  match s with
  | EmptyString => EmptyString
  | String c s' =>
      match skip with
      | S k => replace_from old new k s'
      | O =>
          if String.prefix old s
          then new +:+ replace_from old new (String.length old - 1) s'
          else String c (replace_from old new 0 s')
      end
  end.

Definition replace (old new s : string) : string := replace_from old new 0 s.

(** ** Exceptions and results *)

(** The exception classes the handlers of the repository tell apart; every
    one of them derives from [Exception]. *)
Inductive exn_class : Type :=
  | JSONDecodeError
  | HttpError
  | AttributeError
  | UnboundLocalError
  | OtherException (name : string).

Record exn : Type := Exn { exn_cls : exn_class; exn_msg : string }.

(** [isinstance(e, json.JSONDecodeError)] and [isinstance(e, HttpError)]. *)
Definition is_JSONDecodeError (e : exn) : bool :=
  match exn_cls e with JSONDecodeError => true | _ => false end.

Definition is_HttpError (e : exn) : bool :=
  match exn_cls e with HttpError => true | _ => false end.

Inductive result (A : Type) : Type :=
  | Ok (a : A)
  | Raise (e : exn).
Arguments Ok {A} a.
Arguments Raise {A} e.

(** ** Data of the pipeline *)

(** [langchain_core.documents.Document] *)
Record Document : Type := mkDocument {
  page_content : string;
  metadata : gmap string string
}.

(** [HumanMessage], [AIMessage] and the system message of a chat prompt. *)
Inductive message : Type :=
  | SystemMessage (content : string)
  | HumanMessage (content : string)
  | AIMessage (content : string).

(** One entry of [st.session_state.messages]. *)
Record chat_entry : Type := mkEntry { role : string; content : string }.

(** The response of [cse().list(...).execute()]; [resp_items] is [None]
    when the key ['items'] is not in the response.  One result item of the
    provider is a dict of strings. *)
Record search_response : Type := mkResponse {
  resp_items : option (list (gmap string string))
}.

(** What [json.loads] returns on the extraction reply: a JSON object whose
    values are strings or null (the annotated return type of
    [extract_query_entities] is [Tuple[Optional[str], Optional[str]]]), or
    any JSON document that is not an object. *)
Inductive json_value : Type :=
  | JObject (d : gmap string (option string))
  | JOther.

(** The input of the retrieval chain and its output: the input enriched
    with the retrieved documents and the answer. *)
Record chain_input : Type := mkInput {
  input : string;
  chat_history : list message
}.

Record chain_output : Type := mkOutput {
  out_input : string;
  out_chat_history : list message;
  out_context : list Document;
  out_answer : option string
}.

(** ** Observable events, in the order they happen *)

Inductive event : Type :=
  | EvPrint (line : string)
  | EvTraceback (e : exn)
  | EvBuild (api version developerKey : string)
  | EvCseList (q cx : string) (num : Z)
  | EvEmbeddingsInit (model key : string)
  | EvFromDocuments (docs : list Document)
  | EvChatModelInit (model key : string) (temperature : Q)
  | EvRetrieve (query : string) (k : nat)
  | EvRetrieved (docs : list Document)
  | EvComplete (prompt : list message)
  | EvExtraction (query : string)
  | StWarning (text : string)
  | StError (text : string)
  | StInfo (text : string)
  | StSuccess (text : string)
  | StMarkdown (text : string).

(** ** Configuration and collaborators *)

(** The environment variables the modules read when they are imported. *)
Record Config : Type := mkConfig {
  GOOGLE_API_KEY : option string;
  GOOGLE_CSE_ID : option string;
  GOOGLE_API_KEY_FOR_SEARCH : option string
}.

Record Collaborators : Type := mkCollaborators {
  lib_state : Type;
  cse_service : Type;
  embeddings_model : Type;
  vectorstore : Type;
  chat_model : Type;
  (* googleapiclient.discovery.build(api, version, developerKey=...) *)
  build : string -> string -> string -> lib_state -> result cse_service * lib_state;
  (* service.cse().list(q=..., cx=..., num=...).execute() *)
  cse_list_execute :
    cse_service -> string -> string -> Z -> lib_state -> result search_response * lib_state;
  (* GoogleGenerativeAIEmbeddings(model=..., google_api_key=...) *)
  GoogleGenerativeAIEmbeddings :
    string -> string -> lib_state -> result embeddings_model * lib_state;
  (* Chroma.from_documents(documents=..., embedding=...) *)
  Chroma_from_documents :
    list Document -> embeddings_model -> lib_state -> result vectorstore * lib_state;
  (* ChatGoogleGenerativeAI(model=..., google_api_key=..., temperature=...) *)
  ChatGoogleGenerativeAI :
    string -> string -> Q -> lib_state -> result chat_model * lib_state;
  (* the retriever of a vector store: the k documents most similar to a query *)
  similarity_search :
    vectorstore -> string -> nat -> lib_state -> result (list Document) * lib_state;
  (* llm | StrOutputParser() on a formatted chat prompt *)
  chat_invoke : chat_model -> list message -> lib_state -> result string * lib_state;
  (* extraction_chain.ainvoke({"query": query}) *)
  extraction_chain_ainvoke : string -> lib_state -> result string * lib_state;
  (* json.loads: the decoded value, or the message of the JSONDecodeError *)
  json_loads : string -> json_value + string
}.

(** ** The world and the monad of the embedding *)

Record world (L : Type) : Type := mkWorld {
  lib : L;
  log : list event;
  session_messages : list chat_entry
}.
Arguments mkWorld {L} _ _ _.
Arguments lib {L} _.
Arguments log {L} _.
Arguments session_messages {L} _.

Definition M (L A : Type) : Type := world L -> result A * world L.

Definition ret {L A} (a : A) : M L A := fun w => (Ok a, w).

Definition bind {L A B} (m : M L A) (k : A -> M L B) : M L B :=
  fun w =>
    match m w with
    | (Ok a, w') => k a w'
    | (Raise e, w') => (Raise e, w')
    end.

Definition raise {L A} (e : exn) : M L A := fun w => (Raise e, w).

(** [try: body  except Exception as e: handler e] *)
Definition try_except {L A} (body : M L A) (handler : exn -> M L A) : M L A :=
  fun w =>
    match body w with
    | (Ok a, w') => (Ok a, w')
    | (Raise e, w') => handler e w'
    end.

(** Record an event. *)
Definition emit {L} (ev : event) : M L unit :=
  fun w => (Ok tt, mkWorld (lib w) (log w ++ [ev]) (session_messages w)).

(** Call a collaborator: the call is recorded, then the oracle runs on the
    library state. *)
Definition call {L A} (ev : event) (f : L -> result A * L) : M L A :=
  fun w =>
    let '(r, l') := f (lib w) in
    (r, mkWorld l' (log w ++ [ev]) (session_messages w)).

Declare Scope py_scope.
Delimit Scope py_scope with py.
Notation "x <- c ;; k" := (bind c (fun x => k))
  (at level 100, c at next level, right associativity) : py_scope.
Notation "c ;; k" := (bind c (fun _ => k))
  (at level 100, right associativity) : py_scope.
Local Open Scope py_scope.

Definition print {L} (line : string) : M L unit := emit (EvPrint line).

(** The outcome and the final world of a run. *)
Definition outcome {L A} (r : result A * world L) : result A := fst r.
Definition final {L A} (r : result A * world L) : world L := snd r.

(** The events a run added to the log of its initial world. *)
Definition new_events {L A} (w : world L) (r : result A * world L) : list event :=
  drop (length (log w)) (log (final r)).

(** * external_info_retriever.py *)

Module external_info_retriever.
Section Retriever.
Context (cfg : Config) (env : Collaborators).

(** The lines [service = build(...)] and
    [response = service.cse().list(q=..., cx=..., num=5).execute()]. *)
Definition provider_call (search_query : string) : M (lib_state env) search_response :=
  let key := default "" (GOOGLE_API_KEY_FOR_SEARCH cfg) in
  let cx := default "" (GOOGLE_CSE_ID cfg) in
  service <- call (EvBuild "customsearch" "v1" key) (build env "customsearch" "v1" key) ;;
  call (EvCseList search_query cx 5) (cse_list_execute env service search_query cx 5).

(** The body of the [for item in response['items']] loop: the document
    built from one item. *)
Definition item_document (company_name search_query : string) (it : gmap string string)
    : Document :=
  let title := default "No Title" (it !! "title") in
  let snippet := default "No Snippet" (it !! "snippet") in
  let link := default "No Link" (it !! "link") in
  mkDocument snippet
    (<["source" := link]>
      (<["title" := title]>
        (<["company" := company_name]>
          (<["search_query" := search_query]> ∅)))).

(** [documents = []] followed by the loop that appends one document per
    item. *)
Definition collect_documents (company_name search_query : string)
    (response : search_response) : list Document :=
  match resp_items response with
  | Some items =>
      fold_left
        (fun documents it => documents ++ [item_document company_name search_query it])
        items []
  | None => []
  end.

Definition search_query_of (company_name service_keywords : string) : string :=
  company_name +:+ " " +:+ service_keywords +:+ " services reviews official site".

Definition get_company_web_content (company_name service_keywords : string)
    : M (lib_state env) (list Document) :=
  if py_not (GOOGLE_CSE_ID cfg) || py_not (GOOGLE_API_KEY_FOR_SEARCH cfg) then
    print "Error: Google Custom Search API keys are not configured." ;;
    ret []
  else
    let search_query := search_query_of company_name service_keywords in
    try_except
      (response <- provider_call search_query ;;
       ret (collect_documents company_name search_query response))
      (fun e =>
         if is_HttpError e then
           print ("Google Custom Search API Error: " +:+ exn_msg e) ;;
           ret []
         else
           print ("An unexpected error occurred during web content retrieval: "
                    +:+ exn_msg e) ;;
           ret []).
End Retriever.

(** *** The optional page fetcher *)

(** A [requests.Response] as [_fetch_full_page_content] and
    [raise_for_status] read it. *)
Record http_response : Type := mkHttpResponse {
  status_code : Z;
  reason : string;
  response_url : string;
  response_text : string
}.

(** The web and the HTML library behind [_fetch_full_page_content]. *)
Record PageCollaborators : Type := mkPageCollaborators {
  web_state : Type;
  soup : Type;
  tag : Type;
  (* requests.get(url, headers=..., timeout=...) *)
  requests_get :
    string -> gmap string string -> Z -> web_state -> result http_response * web_state;
  (* from bs4 import BeautifulSoup; BeautifulSoup(text, parser) *)
  BeautifulSoup : string -> string -> web_state -> result soup * web_state;
  (* soup.find(name): None when there is no such element *)
  soup_find : soup -> string -> web_state -> result (option tag) * web_state;
  (* for t in element(names): t.decompose() *)
  decompose_all : tag -> list string -> web_state -> result tag * web_state;
  (* element.get_text(separator=..., strip=True) *)
  tag_get_text : tag -> string -> web_state -> result string * web_state;
  soup_get_text : soup -> string -> web_state -> result string * web_state
}.

(** [requests.exceptions.RequestException] and its subclasses. *)
Definition is_RequestException (e : exn) : bool :=
  match exn_cls e with
  | OtherException name =>
      if decide (name ∈ ["RequestException"; "HTTPError"; "ConnectionError"; "Timeout";
                         "TooManyRedirects"; "InvalidURL"; "MissingSchema"])
      then true else false
  | _ => false
  end.

(** Run an oracle on the library state without recording an event. *)
Definition invoke {L A} (f : L -> result A * L) : M L A :=
  fun w =>
    let '(r, l') := f (lib w) in
    (r, mkWorld l' (log w) (session_messages w)).

(** [response.raise_for_status()]: a status from 400 to 599 raises an
    [HTTPError] that names the status, the reason and the URL. *)
Definition raise_for_status {L} (response : http_response) : M L unit :=
  let status := status_code response in
  if (400 <=? status)%Z && (status <? 500)%Z then
    raise (Exn (OtherException "HTTPError")
             (pretty status +:+ " Client Error: " +:+ reason response
                +:+ " for url: " +:+ response_url response))
  else if (500 <=? status)%Z && (status <? 600)%Z then
    raise (Exn (OtherException "HTTPError")
             (pretty status +:+ " Server Error: " +:+ reason response
                +:+ " for url: " +:+ response_url response))
  else ret tt.

Section FullPage.
Context (web : PageCollaborators).

(** The [try] block of [_fetch_full_page_content]. *)
Definition fetch_page_try (url : string) : M (web_state web) string :=
  let headers : gmap string string := <["User-Agent" := "Mozilla/5.0"]> ∅ in
  response <- invoke (requests_get web url headers 10) ;;
  raise_for_status response ;;
  page <- invoke (BeautifulSoup web (response_text response) "html.parser") ;;
  main_content <- invoke (soup_find web page "body") ;;
  match main_content with
  | Some body =>
      body' <- invoke (decompose_all web body ["script"; "style"]) ;;
      invoke (tag_get_text web body' " ")
  | None => invoke (soup_get_text web page " ")
  end.

Definition _fetch_full_page_content (url : string) : M (web_state web) string :=
  try_except (fetch_page_try url)
    (fun e =>
       if is_RequestException e then
         print ("Error fetching full page content from " +:+ url +:+ ": " +:+ exn_msg e) ;;
         ret EmptyString
       else
         print ("Error parsing HTML from " +:+ url +:+ ": " +:+ exn_msg e) ;;
         ret EmptyString).
End FullPage.
End external_info_retriever.

(** * llm_rag_service.py *)

Module llm_rag_service.
Section Rag.
Context (cfg : Config) (env : Collaborators).

Definition msg_not_configured : string :=
  "I'm sorry, my core AI capabilities are not configured. Please check the API key.".

Definition msg_no_documents : string :=
  "I couldn't find enough relevant information on the web to answer that specific query. "
  +:+ "Please try rephrasing or asking about a different company/service.".

Definition msg_no_answer : string :=
  "I couldn't generate an answer based on the retrieved information.".

Definition msg_internal_error : string :=
  "I'm sorry, I encountered an internal error while trying to process your request.".

(** The system message of [qa_prompt], up to the [{context}] placeholder. *)
Definition system_instruction : string :=
  "You are an AI assistant specializing in providing information about various companies' services. "
  +:+ "Use the following 'SEARCH RESULTS' to answer the user's question accurately and concisely. "
  +:+ "Focus only on the information provided in the 'SEARCH RESULTS'. "
  +:+ "If the 'SEARCH RESULTS' do not contain the answer, state clearly that you cannot find the answer "
  +:+ "based on the provided information. Do not make up any details. "
  +:+ "If the user asks for contact information, provide it if available in the search results, otherwise state it's not available."
  +:+ nl +:+ nl +:+ "SEARCH RESULTS:" +:+ nl.

(** [qa_prompt] formatted: the system message with the context, the
    messages of the [chat_history] placeholder, the human message. *)
Definition qa_prompt (context : string) (history : list message) (question : string)
    : list message :=
  [SystemMessage (system_instruction +:+ context)] ++ history ++ [HumanMessage question].

(** [vectorstore.as_retriever(search_kwargs={"k": 3})]: the query goes to
    the similarity search of the store; the documents it selects are
    recorded when it returns. *)
Definition as_retriever (vs : vectorstore env) (k : nat)
    : string -> M (lib_state env) (list Document) :=
  fun query =>
    docs <- call (EvRetrieve query k) (similarity_search env vs query k) ;;
    emit (EvRetrieved docs) ;;
    ret docs.

(** [create_stuff_documents_chain(llm, qa_prompt)]: the page contents of
    the documents, joined by a blank line, fill [{context}]; the prompt
    goes to the chat model and the reply is parsed to a string. *)
Definition create_stuff_documents_chain (llm : chat_model env)
    (prompt : string -> list message -> string -> list message)
    : chain_input -> list Document -> M (lib_state env) string :=
  fun x docs =>
    let context := String.concat (nl +:+ nl) (map page_content docs) in
    let messages := prompt context (chat_history x) (input x) in
    call (EvComplete messages) (chat_invoke env llm messages).

(** [create_retrieval_chain(retriever, document_chain)]: the retriever
    receives [x["input"]] alone; its documents become [context]; the
    document chain's reply becomes [answer]. *)
Definition create_retrieval_chain
    (retriever : string -> M (lib_state env) (list Document))
    (combine_docs_chain : chain_input -> list Document -> M (lib_state env) string)
    : chain_input -> M (lib_state env) chain_output :=
  fun x =>
    docs <- retriever (input x) ;;
    answer <- combine_docs_chain x docs ;;
    ret (mkOutput (input x) (chat_history x) docs (Some answer)).

(** [GOOGLE_API_KEY] as the constructors receive it, past the guard. *)
Definition api_key : string := default "" (GOOGLE_API_KEY cfg).

(** The body of the [try] block of [get_rag_answer], up to [response]. *)
Definition rag_chain (user_question : string) (external_documents : list Document)
    (history : list message) : M (lib_state env) chain_output :=
  let key := api_key in
  embeddings <- call (EvEmbeddingsInit "models/embedding-001" key)
                  (GoogleGenerativeAIEmbeddings env "models/embedding-001" key) ;;
  vs <- call (EvFromDocuments external_documents)
          (Chroma_from_documents env external_documents embeddings) ;;
  llm <- call (EvChatModelInit "models/gemini-1.5-flash" key (1 # 5))
           (ChatGoogleGenerativeAI env "models/gemini-1.5-flash" key (1 # 5)) ;;
  let retriever := as_retriever vs 3 in
  let document_chain := create_stuff_documents_chain llm qa_prompt in
  let retrieval_chain := create_retrieval_chain retriever document_chain in
  retrieval_chain (mkInput user_question history).

Definition get_rag_answer (user_question : string) (external_documents : list Document)
    (history : list message) : M (lib_state env) string :=
  if py_not (GOOGLE_API_KEY cfg) then
    ret msg_not_configured
  else if decide (external_documents = []) then
    ret msg_no_documents
  else
    try_except
      (response <- rag_chain user_question external_documents history ;;
       ret (default msg_no_answer (out_answer response)))
      (fun e =>
         print ("An error occurred during RAG processing: " +:+ exn_msg e) ;;
         emit (EvTraceback e) ;;
         ret msg_internal_error).
End Rag.
End llm_rag_service.

(** * app.py *)

Module app.
Section Orchestrator.
Context (cfg : Config) (env : Collaborators).

Definition st_warning (text : string) : M (lib_state env) unit := emit (StWarning text).
Definition st_error (text : string) : M (lib_state env) unit := emit (StError text).
Definition st_info (text : string) : M (lib_state env) unit := emit (StInfo text).
Definition st_success (text : string) : M (lib_state env) unit := emit (StSuccess text).
Definition st_markdown (text : string) : M (lib_state env) unit := emit (StMarkdown text).

(** [st.session_state.messages.append({"role": r, "content": c})] *)
Definition append_message (r c : string) : M (lib_state env) unit :=
  fun w => (Ok tt, mkWorld (lib w) (log w) (session_messages w ++ [mkEntry r c])).

Definition read_messages : M (lib_state env) (list chat_entry) :=
  fun w => (Ok (session_messages w), w).

(** [entities.get(key)] on the decoded JSON object: a missing key and a
    null value both give [None]. *)
Definition entities_get (entities : gmap string (option string)) (key : string)
    : option string :=
  default None (entities !! key).

(** [json_str.strip().replace("```json\n", "").replace("\n```", "")] *)
Definition strip_code_fence (json_str : string) : string :=
  replace (nl +:+ "```") "" (replace ("```json" +:+ nl) "" (strip json_str)).

(** The [try] block of [extract_query_entities].  With the outcome of the
    block it yields the binding of the local variable [json_str] at the
    moment the block is left: [None] while it is still unbound, which is
    the case when the [ainvoke] call itself raises. *)
Definition extraction_try (query : string)
    : M (lib_state env) (option string * result (option string * option string)) :=
  fun w =>
    match call (EvExtraction query) (extraction_chain_ainvoke env query) w with
    | (Raise e, w1) => (Ok (None, Raise e), w1)
    | (Ok raw, w1) =>
        let json_str := strip_code_fence raw in
        (Ok (Some json_str,
             match json_loads env json_str with
             | inr msg => Raise (Exn JSONDecodeError msg)
             | inl (JObject entities) =>
                 let company_name := entities_get entities "company_name" in
                 let service_keywords := entities_get entities "service_keywords" in
                 Ok (company_name, service_keywords)
             | inl JOther =>
                 Raise (Exn AttributeError "object has no attribute 'get'")
             end), w1)
    end.

Definition warning_unparsed (json_str : string) (e : exn) : string :=
  "Could not parse entity extraction response: " +:+ json_str
  +:+ ". Error: " +:+ exn_msg e.

Definition error_extraction (e : exn) : string :=
  "Error during entity extraction: " +:+ exn_msg e.

(** What Python raises when the f-string of the first handler reads
    [json_str] before any assignment to it. *)
Definition unbound_json_str : exn :=
  Exn UnboundLocalError
    "cannot access local variable 'json_str' where it is not associated with a value".

Definition extract_query_entities (query : string)
    : M (lib_state env) (option string * option string) :=
  exit <- extraction_try query ;;
  match exit with
  | (_, Ok entities) => ret entities
  | (json_str, Raise e) =>
      if is_JSONDecodeError e then
        (* except json.JSONDecodeError as e: the f-string reads json_str *)
        match json_str with
        | Some js =>
            st_warning (warning_unparsed js e) ;;
            ret (None, None)
        | None => raise unbound_json_str
        end
      else
        (* except Exception as e *)
        st_error (error_extraction e) ;;
        ret (None, None)
  end.

Definition get_langchain_chat_history : M (lib_state env) (list message) :=
  msgs <- read_messages ;;
  ret (fold_left
         (fun langchain_messages msg =>
            if decide (role msg = "user") then
              langchain_messages ++ [HumanMessage (content msg)]
            else if decide (role msg = "assistant") then
              langchain_messages ++ [AIMessage (content msg)]
            else langchain_messages)
         msgs []).

Definition reply_greeting : string :=
  "Hello there! How can I assist you with company services today?".

Definition reply_chitchat : string :=
  "You're welcome! Is there anything specific about company services you'd like to know?".

Definition reply_no_results : string :=
  "I couldn't find specific information for that company and service on the web. "
  +:+ "Could you please rephrase or provide more details?".

Definition reply_clarify (company_name : option string) : string :=
  "I can look up information about " +:+ py_str company_name
  +:+ ". What specific services or aspects are you interested in?".

Definition reply_unidentified : string :=
  "I couldn't identify a specific company or service in your query. "
  +:+ "Please ask about a company's services (e.g., 'What are Google's cloud services?').".

Definition info_searching (company_name service_keywords : option string) : string :=
  "Searching for: Company='" +:+ py_str company_name
  +:+ "', Services='" +:+ py_str service_keywords +:+ "'".

Definition info_found (external_documents : list Document) : string :=
  "Found " +:+ pretty (length external_documents)
  +:+ " relevant snippets. Generating answer...".

(** The branch [elif company_name and service_keywords:]. *)
Definition rag_branch (prompt : string) (history : list message)
    (company_name service_keywords : option string) : M (lib_state env) string :=
  st_info (info_searching company_name service_keywords) ;;
  external_documents <-
    external_info_retriever.get_company_web_content cfg env
      (py_str company_name) (py_str service_keywords) ;;
  if decide (external_documents = []) then
    ret reply_no_results
  else
    st_success (info_found external_documents) ;;
    llm_rag_service.get_rag_answer cfg env prompt external_documents history.

(** The [if] / [elif] chain that computes [llm_response] from the
    extracted pair. *)
Definition respond (prompt : string) (history : list message)
    (company_name service_keywords : option string) : M (lib_state env) string :=
  if py_eq company_name "GREETING" && py_eq service_keywords "GREETING" then
    ret reply_greeting
  else if py_eq company_name "CHITCHAT" && py_eq service_keywords "CHITCHAT" then
    ret reply_chitchat
  else if truthy company_name && truthy service_keywords then
    rag_branch prompt history company_name service_keywords
  else if truthy company_name then
    ret (reply_clarify company_name)
  else
    ret reply_unidentified.

(** The body of [if prompt := st.chat_input(...)]: one turn. *)
Definition handle_prompt (prompt : string) : M (lib_state env) unit :=
  append_message "user" prompt ;;
  st_markdown prompt ;;
  current_langchain_chat_history <- get_langchain_chat_history ;;
  entities <- extract_query_entities prompt ;;
  llm_response <-
    respond prompt current_langchain_chat_history (fst entities) (snd entities) ;;
  st_markdown llm_response ;;
  append_message "assistant" llm_response.

(** One run of the script: the key check with [st.stop()], the rendering
    of the history, and the turn when the chat input holds a prompt. *)
Definition script_run (chat_input : option string) : M (lib_state env) unit :=
  if py_not (GOOGLE_API_KEY cfg) then
    st_error
      "Google Gemini API key not found. Please set it in your .env file or GitHub Secrets."
  else
    msgs <- read_messages ;;
    fold_left (fun acc msg => acc ;; st_markdown (content msg)) msgs (ret tt) ;;
    match chat_input with
    | Some prompt => if truthy chat_input then handle_prompt prompt else ret tt
    | None => ret tt
    end.
End Orchestrator.
End app.

(** * Observations on the log *)

(** The search requests among a list of events: query, engine id and
    number of results asked for. *)
Definition search_requests (evs : list event) : list (string * string * Z) :=
  omap (fun ev => match ev with EvCseList q cx num => Some (q, cx, num) | _ => None end) evs.

(** The retriever's queries and the documents it selected. *)
Definition retrieval_events (evs : list event) : list event :=
  List.filter (fun ev => match ev with
                         | EvRetrieve _ _ | EvRetrieved _ => true
                         | _ => false
                         end) evs.

(** The calls to the embedding model, to the vector store and to the chat
    model of the synthesizer. *)
Definition capability_events (evs : list event) : list event :=
  List.filter (fun ev => match ev with
                         | EvEmbeddingsInit _ _ | EvFromDocuments _ | EvChatModelInit _ _ _
                         | EvRetrieve _ _ | EvRetrieved _ | EvComplete _ => true
                         | _ => false
                         end) evs.

(** The prompts sent to the chat model of the synthesizer. *)
Definition completion_prompts (evs : list event) : list (list message) :=
  omap (fun ev => match ev with EvComplete p => Some p | _ => None end) evs.

(** The queries sent to the extraction chain. *)
Definition extraction_calls (evs : list event) : list string :=
  omap (fun ev => match ev with EvExtraction q => Some q | _ => None end) evs.


(** The texts written with [st.markdown]. *)
Definition rendered (evs : list event) : list string :=
  omap (fun ev => match ev with StMarkdown text => Some text | _ => None end) evs.

(** The lines written with [print]. *)
Definition printed (evs : list event) : list string :=
  omap (fun ev => match ev with EvPrint line => Some line | _ => None end) evs.

(** The conversion loop of [get_langchain_chat_history] on a list of
    session entries. *)
Definition langchain_messages_of (msgs : list chat_entry) : list message :=
  fold_left
    (fun langchain_messages msg =>
       if decide (role msg = "user") then
         langchain_messages ++ [HumanMessage (content msg)]
       else if decide (role msg = "assistant") then
         langchain_messages ++ [AIMessage (content msg)]
       else langchain_messages)
    msgs [].

(** The text of a chat message. *)
Definition message_text (m : message) : string :=
  match m with
  | SystemMessage c | HumanMessage c | AIMessage c => c
  end.

(** A computation leaves the conversation history of the session alone. *)
Definition keeps_session {L A} (m : M L A) : Prop :=
  forall w, session_messages (final (m w)) = session_messages w.

(** Every character of [s] is whitespace for [str.strip]. *)
Fixpoint all_space (s : string) : bool :=
  match s with
  | EmptyString => true
  | String c s' => is_space c && all_space s'
  end.

(** The character [c] does not occur in [s]. *)
Fixpoint free_of (c : ascii) (s : string) : bool :=
  match s with
  | EmptyString => true
  | String a s' => (if decide (a = c) then false else true) && free_of c s'
  end.

(** The opening and the closing of a fenced JSON block. *)
Definition fence_open : string := "```json" +:+ nl.
Definition fence_close : string := nl +:+ "```".

(** A computation only ever appends to the log, and every event it
    appends satisfies [P]. *)
Definition emits {L A} (P : event -> Prop) (m : M L A) : Prop :=
  forall w, exists evs, log (final (m w)) = log w ++ evs /\ Forall P evs.

(** Events other than a call to the extraction chain. *)
Definition not_extraction (ev : event) : Prop :=
  match ev with EvExtraction _ => False | _ => True end.

(** * Concrete collaborators

    A family of collaborators over a library state that counts the calls
    it has served.  The outcomes of [build], of the search request, of the
    extraction chain and of the chat model are parameters; the vector
    store keeps the documents it is given and selects the first [k]. *)

Definition scripted_collaborators
    (client : result unit) (search : result search_response)
    (extraction : result string) (completion : result string)
    (decode : string -> json_value + string) : Collaborators := {|
  lib_state := nat;
  cse_service := unit;
  embeddings_model := unit;
  vectorstore := list Document;
  chat_model := unit;
  build := fun _ _ _ n => (client, S n);
  cse_list_execute := fun _ _ _ _ n => (search, S n);
  GoogleGenerativeAIEmbeddings := fun _ _ n => (Ok tt, S n);
  Chroma_from_documents := fun docs _ n => (Ok docs, S n);
  ChatGoogleGenerativeAI := fun _ _ _ n => (Ok tt, S n);
  similarity_search := fun vs _ k n => (Ok (take k vs), S n);
  chat_invoke := fun _ _ n => (completion, S n);
  extraction_chain_ainvoke := fun _ n => (extraction, S n);
  json_loads := decode
|}.

(** Two provider items: a complete one and one with a snippet only. *)
Definition sample_items : list (gmap string string) :=
  [ <["title" := "CompanyX Cloud Services"]>
      (<["snippet" := "Details about CompanyX cloud."]>
        (<["link" := "http://companyx.com/cloud"]> ∅));
    <["snippet" := "Information on support tiers."]> ∅ ].

Definition sample_documents : list Document :=
  [ mkDocument "Some content." ∅ ].

(** A decoder that knows one reply of the extraction chain. *)
Definition sample_decode (s : string) : json_value + string :=
  if decide (s = "{Acme}") then
    inl (JObject (<["company_name" := Some "Acme"]> (<["service_keywords" := None]> ∅)))
  else if decide (s = "[]") then inl JOther
  else inr "Expecting value: line 1 column 1 (char 0)".

Definition sample_env : Collaborators :=
  scripted_collaborators (Ok tt) (Ok (mkResponse (Some sample_items)))
    (Ok ("```json" +:+ nl +:+ "{Acme}" +:+ nl +:+ "```"))
    (Ok "CompanyX offers cloud hosting.") sample_decode.

(** [build] raises: no client, hence no request. *)
Definition env_no_client : Collaborators :=
  scripted_collaborators (Raise (Exn (OtherException "UnknownApiNameOrVersion") "name: customsearch"))
    (Ok (mkResponse (Some sample_items))) (Ok "{Acme}") (Ok "answer") sample_decode.

(** The search request raises an [HttpError]. *)
Definition env_search_fault : Collaborators :=
  scripted_collaborators (Ok tt) (Raise (Exn HttpError "403 Forbidden"))
    (Ok "{Acme}") (Ok "answer") sample_decode.

(** The provider replies without items. *)
Definition env_no_items : Collaborators :=
  scripted_collaborators (Ok tt) (Ok (mkResponse (Some [])))
    (Ok "{Acme}") (Ok "answer") sample_decode.

(** The chat model raises during completion. *)
Definition env_completion_fault : Collaborators :=
  scripted_collaborators (Ok tt) (Ok (mkResponse (Some sample_items)))
    (Ok "{Acme}") (Raise (Exn (OtherException "Exception") "LLM API connection failed"))
    sample_decode.

(** The extraction chain itself raises a [json.JSONDecodeError]. *)
Definition env_extraction_json_fault : Collaborators :=
  scripted_collaborators (Ok tt) (Ok (mkResponse (Some sample_items)))
    (Raise (Exn JSONDecodeError "Expecting value: line 1 column 1 (char 0)"))
    (Ok "answer") sample_decode.

(** The extraction chain replies with text that is not JSON. *)
Definition env_extraction_garbled : Collaborators :=
  scripted_collaborators (Ok tt) (Ok (mkResponse (Some sample_items)))
    (Ok "I am not sure.") (Ok "answer") sample_decode.

(** The extraction chain raises a fault of another class. *)
Definition env_extraction_fault : Collaborators :=
  scripted_collaborators (Ok tt) (Ok (mkResponse (Some sample_items)))
    (Raise (Exn (OtherException "TimeoutError") "deadline exceeded"))
    (Ok "answer") sample_decode.

(** Collaborators whose vector store is one collection held by the
    library for the whole process: [Chroma.from_documents] adds to it and
    the retriever reads all of it. *)
Definition shared_collection_collaborators : Collaborators := {|
  lib_state := list Document;
  cse_service := unit;
  embeddings_model := unit;
  vectorstore := unit;
  chat_model := unit;
  build := fun _ _ _ st => (Ok tt, st);
  cse_list_execute := fun _ _ _ _ st => (Ok (mkResponse None), st);
  GoogleGenerativeAIEmbeddings := fun _ _ st => (Ok tt, st);
  Chroma_from_documents := fun docs _ st => (Ok tt, st ++ docs);
  ChatGoogleGenerativeAI := fun _ _ _ st => (Ok tt, st);
  similarity_search := fun _ _ k st => (Ok (take k st), st);
  chat_invoke := fun _ _ st => (Ok "answer", st);
  extraction_chain_ainvoke := fun _ st => (Ok "{Acme}", st);
  json_loads := sample_decode
|}.

Definition document_a : Document := mkDocument "Company A is a leading provider of cloud services." ∅.
Definition document_b : Document := mkDocument "Company B sells widgets." ∅.

Definition cfg_all : Config :=
  mkConfig (Some "mock_gemini_api_key") (Some "mock_cse_id") (Some "mock_api_key_for_search").

Definition cfg_none : Config := mkConfig None None None.

Definition world0 : world nat := mkWorld 0%nat [] [].

(** A decoder that knows a reply naming a company and a service. *)
Definition decode_company_service (s : string) : json_value + string :=
  if decide (s = "{Google cloud}") then
    inl (JObject (<["company_name" := Some "Google"]>
                    (<["service_keywords" := Some "cloud services"]> ∅)))
  else inr "Expecting value: line 1 column 1 (char 0)".

(** Collaborators of a whole turn: the extraction finds a company and a
    service, the search returns two items, the chat model answers. *)
Definition env_company_service : Collaborators :=
  scripted_collaborators (Ok tt) (Ok (mkResponse (Some sample_items)))
    (Ok ("```json" +:+ nl +:+ "{Google cloud}" +:+ nl +:+ "```"))
    (Ok "Google offers Compute Engine.") decode_company_service.

(** A session that already holds one exchange. *)
Definition world_with_history : world nat :=
  mkWorld 0%nat [] [mkEntry "user" "Hi"; mkEntry "assistant" "Hello there!"].

(** The web and the HTML library with scripted outcomes: the response of
    the request, the outcome of the parser, and whether the page has a
    body. *)
Definition scripted_pages (response : result external_info_retriever.http_response)
    (page : result unit) (body : option unit)
    : external_info_retriever.PageCollaborators := {|
  external_info_retriever.web_state := nat;
  external_info_retriever.soup := unit;
  external_info_retriever.tag := unit;
  external_info_retriever.requests_get := fun _ _ _ n => (response, S n);
  external_info_retriever.BeautifulSoup := fun _ _ n => (page, S n);
  external_info_retriever.soup_find := fun _ _ n => (Ok body, n);
  external_info_retriever.decompose_all := fun t _ n => (Ok t, n);
  external_info_retriever.tag_get_text := fun _ _ n => (Ok "Cloud services and support", n);
  external_info_retriever.soup_get_text := fun _ _ n => (Ok "Cloud services", n)
|}.

Definition page_not_found : external_info_retriever.http_response :=
  external_info_retriever.mkHttpResponse 404 "Not Found" "http://companyx.com/cloud"
    "<html><body>Not Found</body></html>".

Definition page_ok : external_info_retriever.http_response :=
  external_info_retriever.mkHttpResponse 200 "OK" "http://companyx.com/cloud"
    "<html><body>Cloud services<script>x()</script> and support</body></html>".

(** * Properties *)

(** ** Runs and their events *)

Lemma new_events_of_log {L A} (w : world L) (r : result A * world L) (evs : list event) :
  log (final r) = log w ++ evs -> new_events w r = evs.
Proof.
  intros H. unfold new_events. rewrite H. apply drop_app_length.
Qed.

Section Appending.
Context {L : Type} (P : event -> Prop).

Lemma emits_ret {A} (a : A) : emits P (ret (L := L) a).
Proof. intros w. exists []. cbn. split; [now rewrite app_nil_r | constructor]. Qed.

Lemma emits_raise {A} (e : exn) : emits P (raise (L := L) (A := A) e).
Proof. intros w. exists []. cbn. split; [now rewrite app_nil_r | constructor]. Qed.

Lemma emits_emit (ev : event) : P ev -> emits P (emit (L := L) ev).
Proof. intros H w. exists [ev]. split; [reflexivity | now repeat constructor]. Qed.

Lemma emits_call {A} (ev : event) (f : L -> result A * L) : P ev -> emits P (call ev f).
Proof.
  intros H w. exists [ev]. unfold call. destruct (f (lib w)).
  split; [reflexivity | now repeat constructor].
Qed.

Lemma emits_bind {A B} (m : M L A) (k : A -> M L B) :
  emits P m -> (forall a, emits P (k a)) -> emits P (bind m k).
Proof.
  intros Hm Hk w. unfold bind. destruct (Hm w) as [evs [Hevs HP]].
  destruct (m w) as [[a | e] w1]; cbn in Hevs.
  - destruct (Hk a w1) as [evs' [Hevs' HP']]. exists (evs ++ evs').
    split; [| now apply Forall_app].
    rewrite Hevs', Hevs. now rewrite app_assoc.
  - exists evs. now split.
Qed.

Lemma emits_try {A} (body : M L A) (handler : exn -> M L A) :
  emits P body -> (forall e, emits P (handler e)) -> emits P (try_except body handler).
Proof.
  intros Hm Hk w. unfold try_except. destruct (Hm w) as [evs [Hevs HP]].
  destruct (body w) as [[a | e] w1]; cbn in Hevs.
  - exists evs. now split.
  - destruct (Hk e w1) as [evs' [Hevs' HP']]. exists (evs ++ evs').
    split; [| now apply Forall_app].
    rewrite Hevs', Hevs. now rewrite app_assoc.
Qed.

Lemma emits_new_events {A} (m : M L A) (w : world L) :
  emits P m -> Forall P (new_events w (m w)).
Proof.
  intros Hm. destruct (Hm w) as [evs [Hevs HP]].
  now rewrite (new_events_of_log w (m w) evs Hevs).
Qed.

Lemma new_events_unchanged {A} (w : world L) (a : result A) :
  new_events w (a, w) = [].
Proof. unfold new_events. cbn. apply drop_all. Qed.

Lemma new_events_bind {A B} (m : M L A) (k : A -> M L B) (w : world L) :
  emits (fun _ => True) m -> (forall a, emits (fun _ => True) (k a)) ->
  new_events w (bind m k w)
  = new_events w (m w)
    ++ match m w with
       | (Ok a, w1) => new_events w1 (k a w1)
       | (Raise _, _) => []
       end.
Proof.
  intros Hm Hk. unfold bind. destruct (Hm w) as [evs [Hevs _]].
  rewrite (new_events_of_log w (m w) evs Hevs).
  destruct (m w) as [[a | e] w1]; cbn in Hevs.
  - destruct (Hk a w1) as [evs' [Hevs' _]].
    rewrite (new_events_of_log w1 (k a w1) evs' Hevs').
    apply new_events_of_log. rewrite Hevs', Hevs. now rewrite app_assoc.
  - rewrite app_nil_r. now apply new_events_of_log.
Qed.
End Appending.

(** Proves [emits P] for a computation built from the combinators. *)
Ltac emitting :=
  repeat first
    [ apply emits_ret
    | apply emits_raise
    | apply emits_emit; exact I
    | apply emits_call; exact I
    | apply emits_bind; [| intros ?]
    | apply emits_try; [| intros ?]
    | match goal with
      | |- emits _ (if ?b then _ else _) => destruct b
      | |- emits _ (match ?x with _ => _ end) => destruct x
      end ].

(** Destructs the next collaborator call of the goal. *)
Ltac next_call :=
  match goal with
  | |- context [ build ?env ?a ?b ?c ?st ] =>
      destruct (build env a b c st) as [[?svc | ?exc] ?st'] eqn:?Hbuild
  | |- context [ cse_list_execute ?env ?s ?q ?cx ?n ?st ] =>
      destruct (cse_list_execute env s q cx n st) as [[?resp | ?exc] ?st'] eqn:?Hexec
  | |- context [ GoogleGenerativeAIEmbeddings ?env ?m ?k ?st ] =>
      destruct (GoogleGenerativeAIEmbeddings env m k st) as [[?emb | ?exc] ?st'] eqn:?Hemb
  | |- context [ Chroma_from_documents ?env ?d ?e ?st ] =>
      destruct (Chroma_from_documents env d e st) as [[?vs | ?exc] ?st'] eqn:?Hidx
  | |- context [ ChatGoogleGenerativeAI ?env ?m ?k ?t ?st ] =>
      destruct (ChatGoogleGenerativeAI env m k t st) as [[?llm | ?exc] ?st'] eqn:?Hllm
  | |- context [ similarity_search ?env ?v ?q ?k ?st ] =>
      destruct (similarity_search env v q k st) as [[?ctx | ?exc] ?st'] eqn:?Hsel
  | |- context [ chat_invoke ?env ?m ?p ?st ] =>
      destruct (chat_invoke env m p st) as [[?ans | ?exc] ?st'] eqn:?Hans
  | |- context [ extraction_chain_ainvoke ?env ?q ?st ] =>
      destruct (extraction_chain_ainvoke env q st) as [[?raw | ?exc] ?st'] eqn:?Hext
  end; cbn.

(** ** external_info_retriever.py *)

Section RetrieverProperties.
Context (cfg : Config) (env : Collaborators).
Import external_info_retriever.

Lemma append_loop_map company q (items : list (gmap string string)) (acc : list Document) :
  fold_left (fun documents it => documents ++ [item_document company q it]) items acc
  = acc ++ map (item_document company q) items.
Proof.
  revert acc. induction items as [| it items IH]; intros acc; cbn.
  - now rewrite app_nil_r.
  - rewrite IH, <- app_assoc. reflexivity.
Qed.

Lemma collect_documents_map company q (response : search_response) :
  collect_documents company q response
  = map (item_document company q) (default [] (resp_items response)).
Proof.
  unfold collect_documents. destruct (resp_items response) as [items |]; [| reflexivity].
  apply append_loop_map.
Qed.

Lemma get_company_web_content_total company kw (w : world (lib_state env)) :
  exists docs, outcome (get_company_web_content cfg env company kw w) = Ok docs.
Proof.
  unfold get_company_web_content.
  destruct (py_not (GOOGLE_CSE_ID cfg) || py_not (GOOGLE_API_KEY_FOR_SEARCH cfg)).
  - eexists. reflexivity.
  - unfold try_except, provider_call, bind, call, print, emit, ret, outcome. cbn.
    next_call; [next_call |];
      try (destruct (is_HttpError _)); eexists; reflexivity.
Qed.

Lemma get_company_web_content_emits company kw :
  emits not_extraction (get_company_web_content cfg env company kw).
Proof. unfold get_company_web_content, provider_call, print. emitting. Qed.

Lemma get_company_web_content_no_credentials company kw (w : world (lib_state env)) :
  py_not (GOOGLE_CSE_ID cfg) = true \/ py_not (GOOGLE_API_KEY_FOR_SEARCH cfg) = true ->
  outcome (get_company_web_content cfg env company kw w) = Ok [].
Proof.
  intros H. unfold get_company_web_content.
  replace (py_not (GOOGLE_CSE_ID cfg) || py_not (GOOGLE_API_KEY_FOR_SEARCH cfg)) with true.
  - reflexivity.
  - destruct H as [-> | ->]; [reflexivity | now rewrite orb_true_r].
Qed.

Lemma get_company_web_content_provider_fault company kw (w : world (lib_state env)) e :
  outcome (provider_call cfg env (search_query_of company kw) w) = Raise e ->
  outcome (get_company_web_content cfg env company kw w) = Ok [].
Proof.
  intros H. unfold get_company_web_content.
  destruct (py_not (GOOGLE_CSE_ID cfg) || py_not (GOOGLE_API_KEY_FOR_SEARCH cfg));
    [reflexivity |].
  unfold try_except, bind at 1. unfold outcome in *.
  destruct (provider_call cfg env (search_query_of company kw) w) as [[resp | e'] w'];
    cbn in H; [discriminate |].
  destruct (is_HttpError e'); reflexivity.
Qed.

Lemma get_company_web_content_provider_reply company kw (w : world (lib_state env)) resp :
  py_not (GOOGLE_CSE_ID cfg) = false ->
  py_not (GOOGLE_API_KEY_FOR_SEARCH cfg) = false ->
  outcome (provider_call cfg env (search_query_of company kw) w) = Ok resp ->
  outcome (get_company_web_content cfg env company kw w)
  = Ok (map (item_document company (search_query_of company kw))
          (default [] (resp_items resp))).
Proof.
  intros Hcx Hkey H. unfold get_company_web_content. rewrite Hcx, Hkey. cbn.
  unfold try_except, bind at 1. unfold outcome in *.
  destruct (provider_call cfg env (search_query_of company kw) w) as [[resp' | e'] w'];
    cbn in H; [| discriminate].
  injection H as ->. cbn. now rewrite collect_documents_map.
Qed.
End RetrieverProperties.

Section RetrieverClaims.
Context (cfg : Config) (env : Collaborators).
Import external_info_retriever.

Lemma search_requests_of_run company kw (w : world (lib_state env)) :
  py_not (GOOGLE_CSE_ID cfg) = false ->
  py_not (GOOGLE_API_KEY_FOR_SEARCH cfg) = false ->
  search_requests (new_events w (get_company_web_content cfg env company kw w))
  = match fst (build env "customsearch" "v1"
                 (default "" (GOOGLE_API_KEY_FOR_SEARCH cfg)) (lib w)) with
    | Ok _ => [(search_query_of company kw, default "" (GOOGLE_CSE_ID cfg), 5%Z)]
    | Raise _ => []
    end.
Proof.
  intros Hcx Hkey. unfold get_company_web_content. rewrite Hcx, Hkey. cbn.
  unfold try_except, provider_call, bind, call, print, emit, ret. cbn.
  next_call; [next_call |]; try (destruct (is_HttpError _)); cbn;
    match goal with
    | |- search_requests ?evs = _ =>
        erewrite (new_events_of_log _ _ _) by (cbn; rewrite <- ?app_assoc; reflexivity)
    end; reflexivity.
Qed.

Lemma item_document_fields company q (it : gmap string string) :
  page_content (item_document company q it) = default "No Snippet" (it !! "snippet")
  /\ metadata (item_document company q it) !! "source"
     = Some (default "No Link" (it !! "link"))
  /\ metadata (item_document company q it) !! "title"
     = Some (default "No Title" (it !! "title"))
  /\ metadata (item_document company q it) !! "company" = Some company
  /\ metadata (item_document company q it) !! "search_query" = Some q.
Proof.
  unfold item_document; cbn.
  split; [reflexivity |].
  split; [apply lookup_insert_eq |].
  split; [rewrite lookup_insert_ne by done; apply lookup_insert_eq |].
  split; [do 2 (rewrite lookup_insert_ne by done); apply lookup_insert_eq |].
  do 3 (rewrite lookup_insert_ne by done). apply lookup_insert_eq.
Qed.

(** C2.  [get_company_web_content] never raises, and its result is the
    empty list whenever a search credential is absent, whenever the
    provider call raises a fault (in [build] or in the request), and
    whenever the provider replies with no items (no ['items'] key, or an
    empty list). *)
Theorem get_company_web_content_degrades_to_empty
    company kw (w : world (lib_state env)) :
  (exists docs, outcome (get_company_web_content cfg env company kw w) = Ok docs)
  /\ (py_not (GOOGLE_CSE_ID cfg) = true \/ py_not (GOOGLE_API_KEY_FOR_SEARCH cfg) = true ->
      outcome (get_company_web_content cfg env company kw w) = Ok [])
  /\ (forall e,
        outcome (provider_call cfg env (search_query_of company kw) w) = Raise e ->
        outcome (get_company_web_content cfg env company kw w) = Ok [])
  /\ (forall resp,
        outcome (provider_call cfg env (search_query_of company kw) w) = Ok resp ->
        resp_items resp = None \/ resp_items resp = Some [] ->
        outcome (get_company_web_content cfg env company kw w) = Ok []).
Proof.
  split; [apply get_company_web_content_total |].
  split; [apply get_company_web_content_no_credentials |].
  split; [intros e; apply get_company_web_content_provider_fault |].
  intros resp Hresp Hzero.
  destruct (py_not (GOOGLE_CSE_ID cfg)) eqn:Hcx;
    [apply get_company_web_content_no_credentials; now left |].
  destruct (py_not (GOOGLE_API_KEY_FOR_SEARCH cfg)) eqn:Hkey;
    [apply get_company_web_content_no_credentials; now right |].
  rewrite (get_company_web_content_provider_reply cfg env company kw w resp Hcx Hkey Hresp).
  destruct Hzero as [-> | ->]; reflexivity.
Qed.

(** C6, amended.  With both credentials configured, a call issues at most
    one search request, and exactly one whenever [build] returns a
    client; the request carries the query
    "{company} {keywords} services reviews official site", the configured
    engine id and [num = 5].  When the provider replies, the result holds
    one document per item, in order: its content is the item's snippet,
    its metadata the item's link and title, the company and the query,
    with "No Snippet", "No Link" and "No Title" for a missing field. *)
Theorem get_company_web_content_request_and_mapping
    company kw (w : world (lib_state env)) :
  py_not (GOOGLE_CSE_ID cfg) = false ->
  py_not (GOOGLE_API_KEY_FOR_SEARCH cfg) = false ->
  let q := company +:+ " " +:+ kw +:+ " services reviews official site" in
  let request := (q, default "" (GOOGLE_CSE_ID cfg), 5%Z) in
  let run := get_company_web_content cfg env company kw w in
  (search_requests (new_events w run) = [] \/ search_requests (new_events w run) = [request])
  /\ (forall svc st,
        build env "customsearch" "v1" (default "" (GOOGLE_API_KEY_FOR_SEARCH cfg)) (lib w)
        = (Ok svc, st) ->
        search_requests (new_events w run) = [request])
  /\ (forall resp,
        outcome (provider_call cfg env q w) = Ok resp ->
        outcome run = Ok (map (item_document company q) (default [] (resp_items resp))))
  /\ (forall it : gmap string string,
        page_content (item_document company q it) = default "No Snippet" (it !! "snippet")
        /\ metadata (item_document company q it) !! "source"
           = Some (default "No Link" (it !! "link"))
        /\ metadata (item_document company q it) !! "title"
           = Some (default "No Title" (it !! "title"))
        /\ metadata (item_document company q it) !! "company" = Some company
        /\ metadata (item_document company q it) !! "search_query" = Some q).
Proof.
  intros Hcx Hkey q request run.
  pose proof (search_requests_of_run company kw w Hcx Hkey) as Hreq.
  fold run in Hreq. change (search_query_of company kw) with q in Hreq.
  fold request in Hreq.
  split; [| split; [| split]].
  - rewrite Hreq. destruct (fst _); [now right | now left].
  - intros svc st Hb. rewrite Hreq, Hb. reflexivity.
  - intros resp Hresp.
    apply (get_company_web_content_provider_reply cfg env company kw w resp Hcx Hkey Hresp).
  - intros it. apply item_document_fields.
Qed.
End RetrieverClaims.

(** ** llm_rag_service.py *)

Section RagProperties.
Context (cfg : Config) (env : Collaborators).
Import llm_rag_service.

Lemma get_rag_answer_unconfigured q docs h (w : world (lib_state env)) :
  py_not (GOOGLE_API_KEY cfg) = true ->
  get_rag_answer cfg env q docs h w = (Ok msg_not_configured, w).
Proof. intros H. unfold get_rag_answer. now rewrite H. Qed.

Lemma get_rag_answer_no_documents q h (w : world (lib_state env)) :
  py_not (GOOGLE_API_KEY cfg) = false ->
  get_rag_answer cfg env q [] h w = (Ok msg_no_documents, w).
Proof. intros H. unfold get_rag_answer. now rewrite H. Qed.

Lemma get_rag_answer_guarded q docs h (w : world (lib_state env)) :
  py_not (GOOGLE_API_KEY cfg) = false -> docs <> [] ->
  get_rag_answer cfg env q docs h w
  = try_except
      (response <- rag_chain cfg env q docs h ;;
       ret (default msg_no_answer (out_answer response)))
      (fun e =>
         print ("An error occurred during RAG processing: " +:+ exn_msg e) ;;
         emit (EvTraceback e) ;;
         ret msg_internal_error) w.
Proof.
  intros Hkey Hdocs. unfold get_rag_answer. rewrite Hkey.
  destruct (decide (docs = [])); [contradiction | reflexivity].
Qed.

Lemma msg_not_configured_differs : msg_not_configured <> msg_no_documents.
Proof. discriminate. Qed.

Lemma get_rag_answer_total q docs h (w : world (lib_state env)) :
  exists answer, outcome (get_rag_answer cfg env q docs h w) = Ok answer.
Proof.
  unfold get_rag_answer.
  destruct (py_not (GOOGLE_API_KEY cfg)); [eexists; reflexivity |].
  destruct (decide (docs = [])); [eexists; reflexivity |].
  unfold try_except, bind at 1.
  destruct (rag_chain cfg env q docs h w) as [[response | e] w'];
    eexists; reflexivity.
Qed.

Lemma get_rag_answer_fault q docs h (w : world (lib_state env)) e :
  py_not (GOOGLE_API_KEY cfg) = false -> docs <> [] ->
  outcome (rag_chain cfg env q docs h w) = Raise e ->
  outcome (get_rag_answer cfg env q docs h w) = Ok msg_internal_error.
Proof.
  intros Hkey Hdocs H. rewrite get_rag_answer_guarded by assumption.
  unfold try_except, bind at 1. unfold outcome in H.
  destruct (rag_chain cfg env q docs h w) as [[response | e'] w'];
    [discriminate | reflexivity].
Qed.

Lemma get_rag_answer_emits q docs h : emits not_extraction (get_rag_answer cfg env q docs h).
Proof.
  unfold get_rag_answer, rag_chain, create_retrieval_chain, create_stuff_documents_chain,
    as_retriever, print.
  emitting.
Qed.
End RagProperties.

Section RagStages.
Context (cfg : Config) (env : Collaborators).
Import llm_rag_service.

Ltac run_chain :=
  unfold rag_chain, create_retrieval_chain, create_stuff_documents_chain, as_retriever,
    bind, call, emit, ret, outcome; cbn [lib log session_messages fst snd input chat_history].

Lemma rag_chain_embedding_fault q docs h (w : world (lib_state env)) e st :
  GoogleGenerativeAIEmbeddings env "models/embedding-001" (api_key cfg) (lib w) = (Raise e, st) ->
  outcome (rag_chain cfg env q docs h w) = Raise e.
Proof. intros H. run_chain. now rewrite H. Qed.

Lemma rag_chain_index_fault q docs h (w : world (lib_state env)) emb st e st' :
  GoogleGenerativeAIEmbeddings env "models/embedding-001" (api_key cfg) (lib w) = (Ok emb, st) ->
  Chroma_from_documents env docs emb st = (Raise e, st') ->
  outcome (rag_chain cfg env q docs h w) = Raise e.
Proof. intros H1 H2. run_chain. rewrite H1; cbn [lib fst]. now rewrite H2. Qed.

Lemma rag_chain_chat_model_fault q docs h (w : world (lib_state env))
    emb st1 vs st2 e st3 :
  GoogleGenerativeAIEmbeddings env "models/embedding-001" (api_key cfg) (lib w) = (Ok emb, st1) ->
  Chroma_from_documents env docs emb st1 = (Ok vs, st2) ->
  ChatGoogleGenerativeAI env "models/gemini-1.5-flash" (api_key cfg) (1 # 5) st2 = (Raise e, st3) ->
  outcome (rag_chain cfg env q docs h w) = Raise e.
Proof.
  intros H1 H2 H3. run_chain. rewrite H1; cbn [lib fst]. rewrite H2; cbn [lib fst]. now rewrite H3.
Qed.

Lemma rag_chain_retrieval_fault q docs h (w : world (lib_state env))
    emb st1 vs st2 llm st3 e st4 :
  GoogleGenerativeAIEmbeddings env "models/embedding-001" (api_key cfg) (lib w) = (Ok emb, st1) ->
  Chroma_from_documents env docs emb st1 = (Ok vs, st2) ->
  ChatGoogleGenerativeAI env "models/gemini-1.5-flash" (api_key cfg) (1 # 5) st2 = (Ok llm, st3) ->
  similarity_search env vs q 3 st3 = (Raise e, st4) ->
  outcome (rag_chain cfg env q docs h w) = Raise e.
Proof.
  intros H1 H2 H3 H4. run_chain. rewrite H1; cbn [lib fst]. rewrite H2; cbn [lib fst].
  rewrite H3; cbn [lib fst]. now rewrite H4.
Qed.

Lemma rag_chain_completion_fault q docs h (w : world (lib_state env))
    emb st1 vs st2 llm st3 ctx st4 e st5 :
  GoogleGenerativeAIEmbeddings env "models/embedding-001" (api_key cfg) (lib w) = (Ok emb, st1) ->
  Chroma_from_documents env docs emb st1 = (Ok vs, st2) ->
  ChatGoogleGenerativeAI env "models/gemini-1.5-flash" (api_key cfg) (1 # 5) st2 = (Ok llm, st3) ->
  similarity_search env vs q 3 st3 = (Ok ctx, st4) ->
  chat_invoke env llm
    (qa_prompt (String.concat (nl +:+ nl) (map page_content ctx)) h q) st4
  = (Raise e, st5) ->
  outcome (rag_chain cfg env q docs h w) = Raise e.
Proof.
  intros H1 H2 H3 H4 H5. run_chain. rewrite H1; cbn [lib fst]. rewrite H2; cbn [lib fst].
  rewrite H3; cbn [lib fst]. rewrite H4; cbn [lib fst]. now rewrite H5.
Qed.

(** When every stage returns, the answer of the chat model is the result. *)
Lemma get_rag_answer_success q docs h (w : world (lib_state env))
    emb st1 vs st2 llm st3 ctx st4 answer st5 :
  py_not (GOOGLE_API_KEY cfg) = false -> docs <> [] ->
  GoogleGenerativeAIEmbeddings env "models/embedding-001" (api_key cfg) (lib w) = (Ok emb, st1) ->
  Chroma_from_documents env docs emb st1 = (Ok vs, st2) ->
  ChatGoogleGenerativeAI env "models/gemini-1.5-flash" (api_key cfg) (1 # 5) st2 = (Ok llm, st3) ->
  similarity_search env vs q 3 st3 = (Ok ctx, st4) ->
  chat_invoke env llm
    (qa_prompt (String.concat (nl +:+ nl) (map page_content ctx)) h q) st4
  = (Ok answer, st5) ->
  outcome (get_rag_answer cfg env q docs h w) = Ok answer.
Proof.
  intros Hkey Hdocs H1 H2 H3 H4 H5. rewrite get_rag_answer_guarded by assumption.
  unfold try_except. run_chain. rewrite H1; cbn [lib fst]. rewrite H2; cbn [lib fst].
  rewrite H3; cbn [lib fst]. rewrite H4; cbn [lib fst]. now rewrite H5.
Qed.
End RagStages.

Section RagClaims.
Context (cfg : Config) (env : Collaborators).
Import llm_rag_service.

Ltac compute_events :=
  repeat match goal with
    | |- context [ new_events ?w ?r ] =>
        erewrite (new_events_of_log w r)
          by (cbn [log final snd]; rewrite <- ?app_assoc; reflexivity)
    end.

(** C1, amended.  With the API key configured, a call with an empty
    document sequence returns the "couldn't find enough relevant
    information" string, for any question and any history.  Whether the
    key is configured or not, such a call leaves the world as it found
    it: no embedding, index or completion capability is invoked. *)
Theorem get_rag_answer_empty_documents q h (w : world (lib_state env)) :
  (py_not (GOOGLE_API_KEY cfg) = false ->
   outcome (get_rag_answer cfg env q [] h w) = Ok msg_no_documents)
  /\ final (get_rag_answer cfg env q [] h w) = w
  /\ capability_events (new_events w (get_rag_answer cfg env q [] h w)) = [].
Proof.
  destruct (py_not (GOOGLE_API_KEY cfg)) eqn:Hkey.
  - rewrite get_rag_answer_unconfigured by assumption.
    split; [discriminate |]. split; [reflexivity |].
    now rewrite new_events_unchanged.
  - rewrite get_rag_answer_no_documents by assumption.
    split; [reflexivity |]. split; [reflexivity |].
    now rewrite new_events_unchanged.
Qed.

(** C9.  The configuration guard comes first: without an API key the
    result is the "core AI capabilities are not configured" string for
    every question, document sequence and history, and nothing is
    invoked; in particular an empty document sequence then does not
    produce the "couldn't find enough relevant information" string. *)
Theorem get_rag_answer_configuration_guard_first q docs h (w : world (lib_state env)) :
  py_not (GOOGLE_API_KEY cfg) = true ->
  get_rag_answer cfg env q docs h w = (Ok msg_not_configured, w)
  /\ outcome (get_rag_answer cfg env q [] h w) = Ok msg_not_configured
  /\ outcome (get_rag_answer cfg env q [] h w) <> Ok msg_no_documents.
Proof.
  intros Hkey. rewrite !get_rag_answer_unconfigured by assumption.
  split; [reflexivity |]. split; [reflexivity |].
  unfold outcome; cbn [fst]. intros H. apply msg_not_configured_differs.
  exact (f_equal (fun r => match r with Ok a => a | Raise _ => EmptyString end) H).
Qed.

(** C3.  [get_rag_answer] never raises.  Past the two guards, a fault
    raised anywhere in the chain (by the embedding model, by the
    construction of the index, by the chat model's constructor, by the
    retriever or by the completion) is caught and the result is the
    "internal error" string. *)
Theorem get_rag_answer_never_raises q docs h (w : world (lib_state env)) :
  (exists answer, outcome (get_rag_answer cfg env q docs h w) = Ok answer)
  /\ (py_not (GOOGLE_API_KEY cfg) = false -> docs <> [] ->
      forall e,
        outcome (rag_chain cfg env q docs h w) = Raise e ->
        outcome (get_rag_answer cfg env q docs h w) = Ok msg_internal_error).
Proof.
  split; [apply get_rag_answer_total |].
  intros Hkey Hdocs e. now apply get_rag_answer_fault.
Qed.

Lemma rag_chain_context_independent q docs h1 h2 (w : world (lib_state env)) o1 o2 :
  outcome (rag_chain cfg env q docs h1 w) = Ok o1 ->
  outcome (rag_chain cfg env q docs h2 w) = Ok o2 ->
  out_context o1 = out_context o2.
Proof.
  unfold rag_chain, create_retrieval_chain, create_stuff_documents_chain, as_retriever,
    bind, call, emit, ret, outcome; cbn.
  next_call; [next_call; [next_call; [next_call |] |] |]; try discriminate.
  destruct (chat_invoke env llm _ st'2) as [[a1 | e1] s1];
    destruct (chat_invoke env llm _ st'2) as [[a2 | e2] s2]; cbn;
    intros H1 H2; try discriminate.
  injection H1 as <-; injection H2 as <-; reflexivity.
Qed.

Lemma rag_events_independent q docs h1 h2 (w : world (lib_state env)) :
  retrieval_events (new_events w (get_rag_answer cfg env q docs h1 w))
  = retrieval_events (new_events w (get_rag_answer cfg env q docs h2 w))
  /\ (exists contexts : list string,
        completion_prompts (new_events w (get_rag_answer cfg env q docs h1 w))
        = map (fun c => qa_prompt c h1 q) contexts
        /\ completion_prompts (new_events w (get_rag_answer cfg env q docs h2 w))
           = map (fun c => qa_prompt c h2 q) contexts).
Proof.
  destruct (py_not (GOOGLE_API_KEY cfg)) eqn:Hkey.
  { rewrite !get_rag_answer_unconfigured by assumption. rewrite !new_events_unchanged.
    split; [reflexivity | exists []; split; reflexivity]. }
  destruct (decide (docs = [])) as [-> | Hdocs].
  { rewrite !get_rag_answer_no_documents by assumption. rewrite !new_events_unchanged.
    split; [reflexivity | exists []; split; reflexivity]. }
  rewrite !get_rag_answer_guarded by assumption.
  unfold try_except, rag_chain, create_retrieval_chain,
    create_stuff_documents_chain, as_retriever, print, bind, call, emit, ret; cbn.
  next_call; [next_call; [next_call; [next_call |] |] |].
  all: try (compute_events; split; [reflexivity | exists []; split; reflexivity]).
  destruct (chat_invoke env llm _ st'2) as [[a1 | e1] s1];
    destruct (chat_invoke env llm _ st'2) as [[a2 | e2] s2]; cbn;
    compute_events;
    (split;
     [reflexivity
     | exists [String.concat (nl +:+ nl) (map page_content ctx)]; split; reflexivity]).
Qed.

Lemma retriever_query_is_question q docs h (w : world (lib_state env)) :
  Forall (fun ev => match ev with
                    | EvRetrieve query k => query = q /\ k = 3%nat
                    | _ => True
                    end)
    (new_events w (get_rag_answer cfg env q docs h w)).
Proof.
  apply emits_new_events.
  unfold get_rag_answer, rag_chain, create_retrieval_chain, create_stuff_documents_chain,
    as_retriever, print.
  repeat first
    [ apply emits_ret
    | apply emits_emit; exact I
    | apply emits_call; first [exact I | split; reflexivity]
    | apply emits_bind; [| intros ?]
    | apply emits_try; [| intros ?]
    | match goal with
      | |- emits _ (if ?b then _ else _) => destruct b
      end ].
Qed.

(** C7.  Two runs on the same question and documents, from the same
    world, with histories [h1] and [h2]: the retriever is asked the same
    thing and selects the same documents in both, and what it is asked is
    the three documents closest to the question; the completion prompts of
    the two runs are built from the same context and differ in the history
    alone; and when both chains return, their [context] is the same. *)
Theorem retrieval_ignores_history q docs h1 h2 (w : world (lib_state env)) :
  retrieval_events (new_events w (get_rag_answer cfg env q docs h1 w))
  = retrieval_events (new_events w (get_rag_answer cfg env q docs h2 w))
  /\ Forall (fun ev => match ev with
                       | EvRetrieve query k => query = q /\ k = 3%nat
                       | _ => True
                       end)
       (new_events w (get_rag_answer cfg env q docs h1 w))
  /\ (exists contexts : list string,
        completion_prompts (new_events w (get_rag_answer cfg env q docs h1 w))
        = map (fun c => qa_prompt c h1 q) contexts
        /\ completion_prompts (new_events w (get_rag_answer cfg env q docs h2 w))
           = map (fun c => qa_prompt c h2 q) contexts)
  /\ (forall o1 o2,
        outcome (rag_chain cfg env q docs h1 w) = Ok o1 ->
        outcome (rag_chain cfg env q docs h2 w) = Ok o2 ->
        out_context o1 = out_context o2).
Proof.
  destruct (rag_events_independent q docs h1 h2 w) as [Hsel Hprompt].
  split; [exact Hsel |]. split; [apply retriever_query_is_question |].
  split; [exact Hprompt |].
  intros o1 o2. apply rag_chain_context_independent.
Qed.
End RagClaims.

(** ** app.py *)

Lemma py_eq_true (v : option string) (lit : string) : py_eq v lit = true <-> v = Some lit.
Proof.
  unfold py_eq. destruct v as [s |]; [| split; discriminate].
  destruct (decide (s = lit)) as [-> | Hne]; split; try reflexivity; try discriminate.
  intros H. injection H as H. contradiction.
Qed.

Lemma truthy_true (v : option string) :
  truthy v = true <-> exists s, v = Some s /\ s <> EmptyString.
Proof.
  unfold truthy, py_not. destruct v as [s |]; cbn.
  - destruct (decide (s = EmptyString)) as [-> | Hne]; cbn; split.
    + discriminate.
    + intros [s' [H Hne]]. injection H as <-. contradiction.
    + intros _. now exists s.
    + reflexivity.
  - split; [discriminate | intros [s [H _]]; discriminate].
Qed.

Lemma py_eq_truthy (v : option string) (lit : string) :
  lit <> EmptyString -> py_eq v lit = true -> truthy v = true.
Proof.
  intros Hlit H. apply py_eq_true in H as ->. apply truthy_true. now exists lit.
Qed.

Section ExtractionProperties.
Context (env : Collaborators).
Import app.

Lemma extract_query_entities_parsed query (w : world (lib_state env)) raw st d :
  extraction_chain_ainvoke env query (lib w) = (Ok raw, st) ->
  json_loads env (strip_code_fence raw) = inl (JObject d) ->
  extract_query_entities env query w
  = (Ok (entities_get d "company_name", entities_get d "service_keywords"),
     mkWorld st (log w ++ [EvExtraction query]) (session_messages w)).
Proof.
  intros Hc Hj. unfold extract_query_entities, extraction_try, bind, call.
  rewrite Hc; cbn [lib fst]. now rewrite Hj.
Qed.

Lemma extract_query_entities_malformed query (w : world (lib_state env)) raw st msg :
  extraction_chain_ainvoke env query (lib w) = (Ok raw, st) ->
  json_loads env (strip_code_fence raw) = inr msg ->
  extract_query_entities env query w
  = (Ok (None, None),
     mkWorld st
       (log w ++ [EvExtraction query;
                  StWarning (warning_unparsed (strip_code_fence raw)
                               (Exn JSONDecodeError msg))])
       (session_messages w)).
Proof.
  intros Hc Hj. unfold extract_query_entities, extraction_try, bind, call.
  rewrite Hc; cbn [lib fst]. rewrite Hj. cbn. now rewrite <- app_assoc.
Qed.

Lemma extract_query_entities_not_object query (w : world (lib_state env)) raw st :
  extraction_chain_ainvoke env query (lib w) = (Ok raw, st) ->
  json_loads env (strip_code_fence raw) = inl JOther ->
  exists e,
    extract_query_entities env query w
    = (Ok (None, None),
       mkWorld st (log w ++ [EvExtraction query; StError (error_extraction e)])
         (session_messages w)).
Proof.
  intros Hc Hj. unfold extract_query_entities, extraction_try, bind, call.
  rewrite Hc; cbn [lib fst]. rewrite Hj. cbn. eexists. now rewrite <- app_assoc.
Qed.

Lemma extract_query_entities_fault query (w : world (lib_state env)) e st :
  extraction_chain_ainvoke env query (lib w) = (Raise e, st) ->
  is_JSONDecodeError e = false ->
  extract_query_entities env query w
  = (Ok (None, None),
     mkWorld st (log w ++ [EvExtraction query; StError (error_extraction e)])
       (session_messages w)).
Proof.
  intros Hc He. unfold extract_query_entities, extraction_try, bind, call.
  rewrite Hc; cbn [lib fst]. rewrite He. cbn. now rewrite <- app_assoc.
Qed.

(** The slip: when [ainvoke] itself raises a [JSONDecodeError], the first
    handler runs with [json_str] unbound and an [UnboundLocalError] leaves
    the function. *)
Lemma extract_query_entities_unbound query (w : world (lib_state env)) e st :
  extraction_chain_ainvoke env query (lib w) = (Raise e, st) ->
  is_JSONDecodeError e = true ->
  extract_query_entities env query w
  = (Raise unbound_json_str,
     mkWorld st (log w ++ [EvExtraction query]) (session_messages w)).
Proof.
  intros Hc He. unfold extract_query_entities, extraction_try, bind, call.
  rewrite Hc; cbn [lib fst]. now rewrite He.
Qed.

(** Whatever happens, the extraction chain is invoked exactly once, with
    the query. *)
Lemma extract_query_entities_one_call query (w : world (lib_state env)) :
  extraction_calls (new_events w (extract_query_entities env query w)) = [query].
Proof.
  unfold extract_query_entities, extraction_try, st_warning, st_error, bind, call, emit,
    ret, raise.
  destruct (extraction_chain_ainvoke env query (lib w)) as [[raw | e] st];
    cbn [lib fst log].
  - destruct (json_loads env (strip_code_fence raw)) as [[d |] | msg]; cbn;
      erewrite new_events_of_log by (cbn; rewrite <- ?app_assoc; reflexivity);
      reflexivity.
  - destruct (is_JSONDecodeError e); cbn;
      erewrite new_events_of_log by (cbn; rewrite <- ?app_assoc; reflexivity);
      reflexivity.
Qed.

(** Unless the chain raises a [JSONDecodeError], the function returns. *)
Lemma extract_query_entities_returns query (w : world (lib_state env)) :
  (forall e st, extraction_chain_ainvoke env query (lib w) = (Raise e, st) ->
                is_JSONDecodeError e = false) ->
  exists entities, outcome (extract_query_entities env query w) = Ok entities.
Proof.
  intros Hfault.
  destruct (extraction_chain_ainvoke env query (lib w)) as [[raw | e] st] eqn:Hc.
  - destruct (json_loads env (strip_code_fence raw)) as [[d |] | msg] eqn:Hj.
    + rewrite (extract_query_entities_parsed _ _ _ _ _ Hc Hj). now eexists.
    + destruct (extract_query_entities_not_object _ _ _ _ Hc Hj) as [e ->]. now eexists.
    + rewrite (extract_query_entities_malformed _ _ _ _ _ Hc Hj). now eexists.
  - rewrite (extract_query_entities_fault _ _ _ _ Hc (Hfault _ _ eq_refl)). now eexists.
Qed.
End ExtractionProperties.

Section OrchestratorProperties.
Context (cfg : Config) (env : Collaborators).
Import app.

Lemma respond_greeting prompt history (w : world (lib_state env)) :
  respond cfg env prompt history (Some "GREETING") (Some "GREETING") w
  = (Ok reply_greeting, w).
Proof. reflexivity. Qed.

Lemma respond_chitchat prompt history (w : world (lib_state env)) :
  respond cfg env prompt history (Some "CHITCHAT") (Some "CHITCHAT") w
  = (Ok reply_chitchat, w).
Proof. reflexivity. Qed.

Lemma respond_past_markers prompt history cn sk (w : world (lib_state env)) :
  ~ (cn = Some "GREETING" /\ sk = Some "GREETING") ->
  ~ (cn = Some "CHITCHAT" /\ sk = Some "CHITCHAT") ->
  respond cfg env prompt history cn sk w
  = (if truthy cn && truthy sk then rag_branch cfg env prompt history cn sk
     else if truthy cn then ret (reply_clarify cn)
     else ret reply_unidentified) w.
Proof.
  intros Hg Hc. unfold respond.
  destruct (py_eq cn "GREETING" && py_eq sk "GREETING") eqn:Eg.
  { apply andb_true_iff in Eg as [E1 E2]. apply py_eq_true in E1, E2. tauto. }
  destruct (py_eq cn "CHITCHAT" && py_eq sk "CHITCHAT") eqn:Ec.
  { apply andb_true_iff in Ec as [E1 E2]. apply py_eq_true in E1, E2. tauto. }
  reflexivity.
Qed.

Lemma respond_absent_keywords prompt history cn sk (w : world (lib_state env)) :
  truthy sk = false ->
  respond cfg env prompt history cn sk w
  = (Ok (if truthy cn then reply_clarify cn else reply_unidentified), w).
Proof.
  intros Hsk. rewrite respond_past_markers.
  - rewrite Hsk, andb_false_r. now destruct (truthy cn).
  - intros [_ ->]. discriminate.
  - intros [_ ->]. discriminate.
Qed.

Lemma respond_absent_company prompt history cn sk (w : world (lib_state env)) :
  truthy cn = false ->
  respond cfg env prompt history cn sk w = (Ok reply_unidentified, w).
Proof.
  intros Hcn. rewrite respond_past_markers.
  - now rewrite Hcn.
  - intros [-> _]. discriminate.
  - intros [-> _]. discriminate.
Qed.

Lemma rag_branch_emits prompt history cn sk :
  emits not_extraction (rag_branch cfg env prompt history cn sk).
Proof.
  unfold rag_branch, st_info, st_success.
  apply emits_bind; [emitting |]. intros _.
  apply emits_bind; [apply get_company_web_content_emits |]. intros docs.
  destruct (decide (docs = [])); [emitting |].
  apply emits_bind; [emitting |]. intros _. apply get_rag_answer_emits.
Qed.

(** The retrieval branch always writes its [st.info] line first. *)
Lemma rag_branch_log prompt history cn sk (w : world (lib_state env)) :
  exists evs,
    log (final (rag_branch cfg env prompt history cn sk w))
    = log w ++ StInfo (info_searching cn sk) :: evs.
Proof.
  unfold rag_branch. unfold bind at 1. unfold st_info at 1, emit at 1.
  match goal with
  | |- context [ bind ?m ?k ?w1 ] =>
      assert (Hk : emits not_extraction (bind m k)); [| destruct (Hk w1) as [evs [Hevs _]]]
  end.
  - apply emits_bind; [apply get_company_web_content_emits |]. intros docs.
    destruct (decide (docs = [])); [emitting |].
    unfold st_success. apply emits_bind; [emitting |]. intros _. apply get_rag_answer_emits.
  - exists evs. rewrite Hevs. cbn [log]. now rewrite <- app_assoc.
Qed.

Lemma rag_branch_changes_world prompt history cn sk (w : world (lib_state env)) a :
  rag_branch cfg env prompt history cn sk w <> (a, w).
Proof.
  intros H. destruct (rag_branch_log prompt history cn sk w) as [evs Hevs].
  rewrite H in Hevs. cbn in Hevs.
  apply (f_equal (@length event)) in Hevs. rewrite length_app in Hevs. cbn in Hevs. lia.
Qed.

Lemma rag_branch_unfold prompt history cn sk (w : world (lib_state env)) :
  rag_branch cfg env prompt history cn sk w
  = match external_info_retriever.get_company_web_content cfg env (py_str cn) (py_str sk)
            (final (st_info env (info_searching cn sk) w)) with
    | (Ok docs, w2) =>
        if decide (docs = []) then (Ok reply_no_results, w2)
        else llm_rag_service.get_rag_answer cfg env prompt docs history
               (final (st_success env (info_found docs) w2))
    | (Raise e, w2) => (Raise e, w2)
    end.
Proof.
  unfold rag_branch, bind, st_info, st_success, emit, final, ret. cbn [snd].
  destruct (external_info_retriever.get_company_web_content _ _ _ _ _) as [[docs | e] w2];
    [| reflexivity].
  now destruct (decide (docs = [])).
Qed.

Lemma rag_branch_outcome prompt history cn sk (w : world (lib_state env)) :
  let w1 := final (st_info env (info_searching cn sk) w) in
  let retrieval :=
    external_info_retriever.get_company_web_content cfg env (py_str cn) (py_str sk) w1 in
  (outcome retrieval = Ok [] ->
   outcome (rag_branch cfg env prompt history cn sk w) = Ok reply_no_results)
  /\ (forall docs,
        outcome retrieval = Ok docs -> docs <> [] ->
        outcome (rag_branch cfg env prompt history cn sk w)
        = outcome (llm_rag_service.get_rag_answer cfg env prompt docs history
                     (final (st_success env (info_found docs) (final retrieval))))).
Proof.
  intros w1 retrieval. rewrite rag_branch_unfold. fold w1. fold retrieval.
  unfold outcome. destruct retrieval as [[docs | e] w2]; cbn [fst snd final]; split.
  - intros H. injection H as ->. reflexivity.
  - intros docs' H Hne. injection H as ->.
    destruct (decide (docs' = [])); [contradiction |]. reflexivity.
  - discriminate.
  - discriminate.
Qed.
End OrchestratorProperties.

Section OrchestratorClaims.
Context (cfg : Config) (env : Collaborators).
Import app.

(** C4.  The transition policy, in order, on an extracted pair; a field is
    present when it is truthy, that is a string other than the empty one.
    Both fields "GREETING": the greeting reply.  Both "CHITCHAT": the
    acknowledgement.  Otherwise, company and keywords both present: the
    retriever runs (it always returns); on an empty result the reply is the
    "couldn't find specific information" string, on a non-empty one it is
    what [get_rag_answer] returns on the prompt, those documents and the
    history.  Company present, keywords not: the clarification prompt.
    Company absent: the "couldn't identify" string. *)
Theorem respond_transition_policy prompt history cn sk (w : world (lib_state env)) :
  (cn = Some "GREETING" -> sk = Some "GREETING" ->
   respond cfg env prompt history cn sk w = (Ok reply_greeting, w))
  /\ (cn = Some "CHITCHAT" -> sk = Some "CHITCHAT" ->
      respond cfg env prompt history cn sk w = (Ok reply_chitchat, w))
  /\ (~ (cn = Some "GREETING" /\ sk = Some "GREETING") ->
      ~ (cn = Some "CHITCHAT" /\ sk = Some "CHITCHAT") ->
      truthy cn = true -> truthy sk = true ->
      let w1 := final (st_info env (info_searching cn sk) w) in
      let retrieval :=
        external_info_retriever.get_company_web_content cfg env (py_str cn) (py_str sk) w1 in
      (exists docs, outcome retrieval = Ok docs)
      /\ (outcome retrieval = Ok [] ->
          outcome (respond cfg env prompt history cn sk w) = Ok reply_no_results)
      /\ (forall docs,
            outcome retrieval = Ok docs -> docs <> [] ->
            outcome (respond cfg env prompt history cn sk w)
            = outcome (llm_rag_service.get_rag_answer cfg env prompt docs history
                         (final (st_success env (info_found docs) (final retrieval))))))
  /\ (truthy cn = true -> truthy sk = false ->
      respond cfg env prompt history cn sk w = (Ok (reply_clarify cn), w))
  /\ (truthy cn = false ->
      respond cfg env prompt history cn sk w = (Ok reply_unidentified, w)).
Proof.
  split; [intros -> ->; apply respond_greeting |].
  split; [intros -> ->; apply respond_chitchat |].
  split; [| split].
  - intros Hg Hc Hcn Hsk w1 retrieval.
    split; [apply get_company_web_content_total |].
    rewrite respond_past_markers by assumption. rewrite Hcn, Hsk. cbn [andb].
    apply rag_branch_outcome.
  - intros Hcn Hsk. rewrite respond_absent_keywords by assumption. now rewrite Hcn.
  - apply respond_absent_company.
Qed.

Lemma respond_greeting_only prompt history cn sk (w : world (lib_state env)) :
  respond cfg env prompt history cn sk w = (Ok reply_greeting, w) ->
  cn = Some "GREETING" /\ sk = Some "GREETING".
Proof.
  intros H.
  destruct (decide (cn = Some "GREETING" /\ sk = Some "GREETING")) as [Hg | Hg];
    [exact Hg | exfalso].
  destruct (decide (cn = Some "CHITCHAT" /\ sk = Some "CHITCHAT")) as [[-> ->] | Hc];
    [discriminate H |].
  rewrite respond_past_markers in H by assumption.
  destruct (truthy cn && truthy sk).
  - now apply rag_branch_changes_world in H.
  - destruct (truthy cn); discriminate H.
Qed.

Lemma respond_chitchat_only prompt history cn sk (w : world (lib_state env)) :
  respond cfg env prompt history cn sk w = (Ok reply_chitchat, w) ->
  cn = Some "CHITCHAT" /\ sk = Some "CHITCHAT".
Proof.
  intros H.
  destruct (decide (cn = Some "CHITCHAT" /\ sk = Some "CHITCHAT")) as [Hc | Hc];
    [exact Hc | exfalso].
  destruct (decide (cn = Some "GREETING" /\ sk = Some "GREETING")) as [[-> ->] | Hg];
    [discriminate H |].
  rewrite respond_past_markers in H by assumption.
  destruct (truthy cn && truthy sk).
  - now apply rag_branch_changes_world in H.
  - destruct (truthy cn); discriminate H.
Qed.

(** C10.  The greeting (chit-chat) short-circuit is taken exactly when both
    fields equal "GREETING" ("CHITCHAT").  The mixed pair ("GREETING", null)
    falls through to the clarification prompt, which names "GREETING" as
    the company.  An empty string counts as absent: it is treated as null
    is, so an empty company gives the "couldn't identify" reply and empty
    keywords next to a present company give the clarification prompt, not a
    retrieval. *)
Theorem marker_short_circuits prompt history (w : world (lib_state env)) :
  (forall cn sk,
     respond cfg env prompt history cn sk w = (Ok reply_greeting, w)
     <-> cn = Some "GREETING" /\ sk = Some "GREETING")
  /\ (forall cn sk,
        respond cfg env prompt history cn sk w = (Ok reply_chitchat, w)
        <-> cn = Some "CHITCHAT" /\ sk = Some "CHITCHAT")
  /\ respond cfg env prompt history (Some "GREETING") None w
     = (Ok ("I can look up information about GREETING. "
              +:+ "What specific services or aspects are you interested in?"), w)
  /\ (forall sk,
        respond cfg env prompt history (Some EmptyString) sk w
        = respond cfg env prompt history None sk w
        /\ respond cfg env prompt history (Some EmptyString) sk w
           = (Ok reply_unidentified, w))
  /\ (forall cn,
        respond cfg env prompt history cn (Some EmptyString) w
        = respond cfg env prompt history cn None w)
  /\ (forall cn,
        truthy cn = true ->
        respond cfg env prompt history cn (Some EmptyString) w
        = (Ok (reply_clarify cn), w)).
Proof.
  split.
  { intros cn sk. split; [apply respond_greeting_only |].
    intros [-> ->]. apply respond_greeting. }
  split.
  { intros cn sk. split; [apply respond_chitchat_only |].
    intros [-> ->]. apply respond_chitchat. }
  split; [reflexivity |].
  split.
  { intros sk. now rewrite !respond_absent_company by reflexivity. }
  split.
  { intros cn. now rewrite !respond_absent_keywords by reflexivity. }
  intros cn Hcn. rewrite respond_absent_keywords by reflexivity. now rewrite Hcn.
Qed.
End OrchestratorClaims.

Section TurnProperties.
Context (cfg : Config) (env : Collaborators).
Import app.




Lemma respond_emits prompt history cn sk :
  emits not_extraction (respond cfg env prompt history cn sk).
Proof.
  unfold respond.
  repeat match goal with
         | |- emits _ (if ?b then _ else _) => destruct b
         end; try apply rag_branch_emits; emitting.
Qed.

Lemma extract_query_entities_log query (w : world (lib_state env)) :
  exists evs, log (final (extract_query_entities env query w)) = log w ++ evs.
Proof.
  unfold extract_query_entities, extraction_try, st_warning, st_error, bind, call, emit,
    ret, raise.
  destruct (extraction_chain_ainvoke env query (lib w)) as [[raw | e] st];
    cbn [lib fst log].
  - destruct (json_loads env (strip_code_fence raw)) as [[d |] | msg]; cbn;
      eexists; rewrite <- ?app_assoc; reflexivity.
  - destruct (is_JSONDecodeError e); cbn; eexists; rewrite <- ?app_assoc; reflexivity.
Qed.


End TurnProperties.

(** * The code on concrete inputs *)

Section Scenarios.
Import external_info_retriever llm_rag_service app.

(** The repository's test of a successful search: two items, the second
    without title and link. *)
Example search_success :
  get_company_web_content cfg_all sample_env "CompanyX" "cloud services" world0
  = (Ok [ item_document "CompanyX" "CompanyX cloud services services reviews official site"
            (<["title" := "CompanyX Cloud Services"]>
               (<["snippet" := "Details about CompanyX cloud."]>
                  (<["link" := "http://companyx.com/cloud"]> ∅)));
          mkDocument "Information on support tiers."
            (<["source" := "No Link"]>
               (<["title" := "No Title"]>
                  (<["company" := "CompanyX"]>
                     (<["search_query" :=
                          "CompanyX cloud services services reviews official site"]> ∅)))) ],
     mkWorld 2%nat
       [ EvBuild "customsearch" "v1" "mock_api_key_for_search";
         EvCseList "CompanyX cloud services services reviews official site" "mock_cse_id" 5 ]
       []).
Proof. vm_compute. reflexivity. Qed.

Example search_http_error :
  outcome (get_company_web_content cfg_all env_search_fault "CompanyA" "services" world0)
  = Ok [].
Proof. reflexivity. Qed.

Example search_missing_keys :
  get_company_web_content cfg_none sample_env "CompanyB" "services" world0
  = (Ok [], mkWorld 0%nat
              [EvPrint "Error: Google Custom Search API keys are not configured."] []).
Proof. reflexivity. Qed.

(** The synthesizer on one document: five capability calls, in order. *)
Example rag_answer_run :
  new_events world0 (get_rag_answer cfg_all sample_env "Test question." sample_documents [] world0)
  = [ EvEmbeddingsInit "models/embedding-001" "mock_gemini_api_key";
      EvFromDocuments sample_documents;
      EvChatModelInit "models/gemini-1.5-flash" "mock_gemini_api_key" (1 # 5);
      EvRetrieve "Test question." 3;
      EvRetrieved sample_documents;
      EvComplete (qa_prompt "Some content." [] "Test question.") ]
  /\ outcome (get_rag_answer cfg_all sample_env "Test question." sample_documents [] world0)
     = Ok "CompanyX offers cloud hosting.".
Proof. split; vm_compute; reflexivity. Qed.

Example rag_answer_llm_error :
  outcome (get_rag_answer cfg_all env_completion_fault "Test question." sample_documents []
             world0)
  = Ok msg_internal_error.
Proof. vm_compute. reflexivity. Qed.

(** The code fence around the reply of the extraction chain is removed. *)
Example strip_code_fence_reply :
  strip_code_fence ("  ```json" +:+ nl +:+ "{Acme}" +:+ nl +:+ "``` " +:+ nl) = "{Acme}".
Proof. reflexivity. Qed.

Example replace_left_to_right : replace "aa" "b" "aaaaa" = "bba".
Proof. reflexivity. Qed.

Example extraction_of_fenced_reply :
  outcome (extract_query_entities sample_env "Tell me about Acme" world0)
  = Ok (Some "Acme", None).
Proof. vm_compute. reflexivity. Qed.

Example extraction_of_garbled_reply :
  extract_query_entities env_extraction_garbled "???" world0
  = (Ok (None, None),
     mkWorld 1%nat
       [ EvExtraction "???";
         StWarning ("Could not parse entity extraction response: I am not sure.. Error: "
                      +:+ "Expecting value: line 1 column 1 (char 0)") ] []).
Proof. vm_compute. reflexivity. Qed.

(** Scenario: a greeting. *)
Example turn_greeting :
  respond cfg_all sample_env "Hi there!" [HumanMessage "Hi there!"]
    (Some "GREETING") (Some "GREETING") world0
  = (Ok "Hello there! How can I assist you with company services today?", world0).
Proof. reflexivity. Qed.

(** Scenario: the provider has nothing on (CompanyX, widgets). *)
Example turn_no_results :
  outcome (respond cfg_all env_no_items "What widgets does CompanyX make?" []
             (Some "CompanyX") (Some "widgets") world0)
  = Ok ("I couldn't find specific information for that company and service on the web. "
          +:+ "Could you please rephrase or provide more details?").
Proof. vm_compute. reflexivity. Qed.

(** Scenario: a company without a service; the whole turn. *)
Example turn_clarification :
  session_messages (final (handle_prompt cfg_all sample_env "Tell me about Acme" world0))
  = [ mkEntry "user" "Tell me about Acme";
      mkEntry "assistant"
        ("I can look up information about Acme. "
           +:+ "What specific services or aspects are you interested in?") ].
Proof. vm_compute. reflexivity. Qed.

(** With a vector store that is private to the call, the second of two
    calls retrieves its own document only; with a collection that the
    library shares across calls, it also retrieves the document of the
    first call.  Which of the two the deployed library does is not decided
    by the code of [get_rag_answer]. *)
Example index_private_to_call :
  retrieval_events
    (new_events
       (final (get_rag_answer cfg_all sample_env "q1" [document_a] [] world0))
       (get_rag_answer cfg_all sample_env "q2" [document_b] []
          (final (get_rag_answer cfg_all sample_env "q1" [document_a] [] world0))))
  = [EvRetrieve "q2" 3; EvRetrieved [document_b]].
Proof. vm_compute. reflexivity. Qed.

Example index_shared_by_library :
  retrieval_events
    (new_events
       (final (get_rag_answer cfg_all shared_collection_collaborators "q1" [document_a] []
                 (mkWorld [] [] [])))
       (get_rag_answer cfg_all shared_collection_collaborators "q2" [document_b] []
          (final (get_rag_answer cfg_all shared_collection_collaborators "q1" [document_a] []
                    (mkWorld [] [] [])))))
  = [EvRetrieve "q2" 3; EvRetrieved [document_a; document_b]].
Proof. vm_compute. reflexivity. Qed.
End Scenarios.

(** * The claims on concrete inputs *)

(** C1, as stated, fails without an API key: the call with an empty
    document sequence returns the "not configured" string, which is not
    the "couldn't find enough relevant information" string. *)
Lemma get_rag_answer_empty_documents_unconfigured :
  outcome (llm_rag_service.get_rag_answer cfg_none sample_env
             "What services does Company Z provide?" [] [] world0)
  = Ok llm_rag_service.msg_not_configured
  /\ outcome (llm_rag_service.get_rag_answer cfg_none sample_env
                "What services does Company Z provide?" [] [] world0)
     <> Ok llm_rag_service.msg_no_documents.
Proof. split; [reflexivity | discriminate]. Qed.

(** C1, amended, with the key of the test suite and a one-message history. *)
Lemma get_rag_answer_empty_documents_witness :
  py_not (GOOGLE_API_KEY cfg_all) = false
  /\ outcome (llm_rag_service.get_rag_answer cfg_all sample_env
                "What services does Company Z provide?" [] [HumanMessage "Hello"] world0)
     = Ok llm_rag_service.msg_no_documents.
Proof.
  split; [reflexivity |].
  apply (proj1 (get_rag_answer_empty_documents cfg_all sample_env
                  "What services does Company Z provide?" [HumanMessage "Hello"] world0)).
  reflexivity.
Defined.

(** C2 on the four ways to an empty result: no credentials, a request
    that raises, a client that cannot be built, a reply without items. *)
Lemma get_company_web_content_degrades_to_empty_witness :
  outcome (external_info_retriever.get_company_web_content cfg_none sample_env
             "CompanyB" "services" world0) = Ok []
  /\ outcome (external_info_retriever.get_company_web_content cfg_all env_search_fault
                "CompanyA" "services" world0) = Ok []
  /\ outcome (external_info_retriever.get_company_web_content cfg_all env_no_client
                "CompanyA" "services" world0) = Ok []
  /\ outcome (external_info_retriever.get_company_web_content cfg_all env_no_items
                "NonExistentCompany" "services" world0) = Ok [].
Proof.
  split; [| split; [| split]].
  - apply (proj1 (proj2 (get_company_web_content_degrades_to_empty cfg_none sample_env
                           "CompanyB" "services" world0))).
    left. reflexivity.
  - apply (proj1 (proj2 (proj2 (get_company_web_content_degrades_to_empty cfg_all
                                  env_search_fault "CompanyA" "services" world0)))
             (Exn HttpError "403 Forbidden")).
    reflexivity.
  - apply (proj1 (proj2 (proj2 (get_company_web_content_degrades_to_empty cfg_all
                                  env_no_client "CompanyA" "services" world0)))
             (Exn (OtherException "UnknownApiNameOrVersion") "name: customsearch")).
    reflexivity.
  - apply (proj2 (proj2 (proj2 (get_company_web_content_degrades_to_empty cfg_all
                                  env_no_items "NonExistentCompany" "services" world0)))
             (mkResponse (Some []))).
    + reflexivity.
    + right. reflexivity.
Defined.

(** C3 on a chat model that raises during completion. *)
Lemma get_rag_answer_never_raises_witness :
  py_not (GOOGLE_API_KEY cfg_all) = false
  /\ sample_documents <> []
  /\ outcome (llm_rag_service.rag_chain cfg_all env_completion_fault "Test question."
                sample_documents [] world0)
     = Raise (Exn (OtherException "Exception") "LLM API connection failed")
  /\ outcome (llm_rag_service.get_rag_answer cfg_all env_completion_fault "Test question."
                sample_documents [] world0)
     = Ok llm_rag_service.msg_internal_error.
Proof.
  split; [reflexivity |]. split; [discriminate |]. split; [reflexivity |].
  apply (proj2 (get_rag_answer_never_raises cfg_all env_completion_fault "Test question."
                  sample_documents [] world0)
           eq_refl ltac:(discriminate)
           (Exn (OtherException "Exception") "LLM API connection failed")).
  reflexivity.
Defined.

(** C4 on one extracted pair per branch. *)
Lemma respond_transition_policy_witness :
  app.respond cfg_all sample_env "Hi there!" [] (Some "GREETING") (Some "GREETING") world0
  = (Ok app.reply_greeting, world0)
  /\ app.respond cfg_all sample_env "Thank you!" [] (Some "CHITCHAT") (Some "CHITCHAT") world0
     = (Ok app.reply_chitchat, world0)
  /\ outcome (app.respond cfg_all env_no_items "What widgets does CompanyX make?" []
                (Some "CompanyX") (Some "widgets") world0)
     = Ok app.reply_no_results
  /\ app.respond cfg_all sample_env "Tell me about Acme" [] (Some "Acme") None world0
     = (Ok (app.reply_clarify (Some "Acme")), world0)
  /\ app.respond cfg_all sample_env "What about cloud?" [] None (Some "cloud") world0
     = (Ok app.reply_unidentified, world0).
Proof.
  split; [| split; [| split; [| split]]].
  - apply (proj1 (respond_transition_policy cfg_all sample_env "Hi there!" []
                    (Some "GREETING") (Some "GREETING") world0)); reflexivity.
  - apply (proj1 (proj2 (respond_transition_policy cfg_all sample_env "Thank you!" []
                           (Some "CHITCHAT") (Some "CHITCHAT") world0))); reflexivity.
  - apply (proj1 (proj2 (proj2 (respond_transition_policy cfg_all env_no_items
                                  "What widgets does CompanyX make?" []
                                  (Some "CompanyX") (Some "widgets") world0)))).
    + intros [H _]. discriminate H.
    + intros [H _]. discriminate H.
    + reflexivity.
    + reflexivity.
    + reflexivity.
  - apply (proj1 (proj2 (proj2 (proj2 (respond_transition_policy cfg_all sample_env
                                         "Tell me about Acme" [] (Some "Acme") None
                                         world0))))); reflexivity.
  - apply (proj2 (proj2 (proj2 (proj2 (respond_transition_policy cfg_all sample_env
                                         "What about cloud?" [] None (Some "cloud")
                                         world0))))); reflexivity.
Defined.

(** C5 fails on a completion call that raises [json.JSONDecodeError]: the
    handler of that class formats [json_str], which is still unbound, and
    the [UnboundLocalError] leaves [extract_query_entities]; the turn that
    called it ends with the same exception and no reply. *)
Theorem extract_query_entities_propagates_unbound_local :
  outcome (app.extract_query_entities env_extraction_json_fault "Hi there!" world0)
  = Raise app.unbound_json_str
  /\ outcome (app.handle_prompt cfg_all env_extraction_json_fault "Hi there!" world0)
     = Raise app.unbound_json_str.
Proof.
  split.
  - unfold outcome.
    now rewrite (extract_query_entities_unbound env_extraction_json_fault "Hi there!" world0
                   (Exn JSONDecodeError "Expecting value: line 1 column 1 (char 0)")
                   1%nat eq_refl eq_refl).
  - vm_compute. reflexivity.
Qed.

(** C6, as stated, fails when [build] raises: the credentials are
    configured, the call returns the empty list, and no search request at
    all has been issued. *)
Lemma get_company_web_content_no_request_without_client :
  search_requests
    (new_events world0
       (external_info_retriever.get_company_web_content cfg_all env_no_client
          "CompanyX" "cloud services" world0))
  = []
  /\ new_events world0
       (external_info_retriever.get_company_web_content cfg_all env_no_client
          "CompanyX" "cloud services" world0)
     = [ EvBuild "customsearch" "v1" "mock_api_key_for_search";
         EvPrint ("An unexpected error occurred during web content retrieval: "
                    +:+ "name: customsearch") ].
Proof. split; vm_compute; reflexivity. Qed.

(** C6, amended, on the search of the test suite. *)
Lemma get_company_web_content_request_and_mapping_witness :
  py_not (GOOGLE_CSE_ID cfg_all) = false
  /\ py_not (GOOGLE_API_KEY_FOR_SEARCH cfg_all) = false
  /\ search_requests
       (new_events world0
          (external_info_retriever.get_company_web_content cfg_all sample_env
             "CompanyX" "cloud services" world0))
     = [("CompanyX cloud services services reviews official site", "mock_cse_id", 5%Z)].
Proof.
  split; [reflexivity |]. split; [reflexivity |].
  apply (proj1 (proj2 (get_company_web_content_request_and_mapping cfg_all sample_env
                         "CompanyX" "cloud services" world0 eq_refl eq_refl))
           tt 1%nat).
  reflexivity.
Defined.

(** C9 with no environment variable set and one document. *)
Lemma get_rag_answer_configuration_guard_first_witness :
  py_not (GOOGLE_API_KEY cfg_none) = true
  /\ llm_rag_service.get_rag_answer cfg_none sample_env "What services?" sample_documents []
       world0
     = (Ok llm_rag_service.msg_not_configured, world0).
Proof.
  split; [reflexivity |].
  apply (proj1 (get_rag_answer_configuration_guard_first cfg_none sample_env
                  "What services?" sample_documents [] world0 eq_refl)).
Defined.

(** C10 on a greeting and on a company with empty keywords. *)
Lemma marker_short_circuits_witness :
  app.respond cfg_all sample_env "Hi" [] (Some "GREETING") (Some "GREETING") world0
  = (Ok app.reply_greeting, world0)
  /\ app.respond cfg_all sample_env "Hi" [] (Some "Acme") (Some EmptyString) world0
     = (Ok (app.reply_clarify (Some "Acme")), world0).
Proof.
  split.
  - apply (proj1 (marker_short_circuits cfg_all sample_env "Hi" [] world0)).
    split; reflexivity.
  - apply (proj2 (proj2 (proj2 (proj2 (proj2
             (marker_short_circuits cfg_all sample_env "Hi" [] world0)))))).
    reflexivity.
Defined.

(** * Further properties of the code *)

(** ** The code fence of the extraction reply *)

Lemma append_cons (x : ascii) (a b : string) : String x a +:+ b = String x (a +:+ b).
Proof. reflexivity. Qed.

Lemma append_nil (b : string) : EmptyString +:+ b = b.
Proof. reflexivity. Qed.

Lemma append_assoc_string (a b c : string) : (a +:+ b) +:+ c = a +:+ (b +:+ c).
Proof.
  induction a as [| x a IH]; [reflexivity |]. rewrite !append_cons. now rewrite IH.
Qed.

Lemma append_empty_r (a : string) : a +:+ EmptyString = a.
Proof.
  induction a as [| x a IH]; [reflexivity |]. rewrite append_cons. now rewrite IH.
Qed.

Lemma lstrip_spaces (ws t : string) : all_space ws = true -> lstrip (ws +:+ t) = lstrip t.
Proof.
  induction ws as [| c ws IH]; [reflexivity |]. rewrite append_cons. cbn.
  intros H. apply andb_true_iff in H as [Hc Hws]. rewrite Hc. now apply IH.
Qed.

Lemma rstrip_spaces (ws : string) : all_space ws = true -> rstrip ws = EmptyString.
Proof.
  induction ws as [| c ws IH]; cbn; [reflexivity |].
  intros H. apply andb_true_iff in H as [Hc Hws]. rewrite (IH Hws). now rewrite Hc.
Qed.

Lemma rstrip_app_spaces (t ws : string) :
  all_space ws = true -> rstrip (t +:+ ws) = rstrip t.
Proof.
  intros Hws. induction t as [| c t IH].
  - rewrite append_nil. now apply rstrip_spaces.
  - rewrite append_cons. cbn. now rewrite IH.
Qed.

Lemma lstrip_all_space (ws : string) : all_space ws = true -> lstrip ws = EmptyString.
Proof.
  induction ws as [| c ws IH]; cbn; [reflexivity |].
  intros H. apply andb_true_iff in H as [Hc Hws]. rewrite Hc. now apply IH.
Qed.

Lemma strip_surrounding_space (ws1 s ws2 : string) :
  all_space ws1 = true -> all_space ws2 = true ->
  strip (ws1 +:+ s +:+ ws2) = strip s.
Proof.
  intros H1 H2. unfold strip. rewrite lstrip_spaces by assumption.
  induction s as [| c s IH].
  - rewrite append_nil. now rewrite lstrip_all_space.
  - rewrite append_cons. cbn [lstrip]. destruct (is_space c); [exact IH |].
    rewrite <- append_cons. now apply rstrip_app_spaces.
Qed.

Lemma rstrip_ends_nonspace (t : string) (c : ascii) :
  is_space c = false ->
  rstrip (t +:+ String c EmptyString) = t +:+ String c EmptyString.
Proof.
  intros Hc. induction t as [| a t IH].
  - rewrite append_nil. cbn. now rewrite Hc.
  - rewrite append_cons. cbn [rstrip]. rewrite IH.
    destruct t; [rewrite append_nil | rewrite append_cons]; reflexivity.
Qed.

Lemma free_of_lstrip c s : free_of c s = true -> free_of c (lstrip s) = true.
Proof.
  induction s as [| a s IH]; cbn; [reflexivity |].
  intros H. destruct (is_space a); [| exact H].
  apply andb_true_iff in H as [_ H]. now apply IH.
Qed.

Lemma free_of_rstrip c s : free_of c s = true -> free_of c (rstrip s) = true.
Proof.
  induction s as [| a s IH]; cbn; [reflexivity |].
  intros H. apply andb_true_iff in H as [Ha H]. specialize (IH H).
  destruct (rstrip s) as [| b r].
  - destruct (is_space a); cbn; [reflexivity | now rewrite Ha].
  - cbn in *. now rewrite Ha, IH.
Qed.

(** A pattern whose first character does not occur in [s] matches nowhere
    in [s]: the scan copies [s] and goes on with what follows it. *)
Lemma replace_from_free (a : ascii) (old new s t : string) :
  free_of a s = true ->
  replace_from (String a old) new 0 (s +:+ t)
  = s +:+ replace_from (String a old) new 0 t.
Proof.
  induction s as [| c s IH]; [reflexivity |].
  rewrite !append_cons. cbn [free_of].
  intros H. apply andb_true_iff in H as [Hc Hs].
  destruct (decide (c = a)) as [-> | Hne]; [discriminate |].
  cbn [replace_from String.prefix].
  destruct (ascii_dec a c) as [-> | _]; [contradiction |].
  now rewrite (IH Hs).
Qed.

Lemma replace_free (a : ascii) (old new s : string) :
  free_of a s = true -> replace (String a old) new s = s.
Proof.
  intros H. unfold replace. rewrite <- (append_empty_r s) at 1.
  rewrite replace_from_free by assumption. cbn. apply append_empty_r.
Qed.

(** The closing fence starts with a newline, which a payload may hold; it
    still matches nowhere in a payload without backticks, whatever follows
    as long as that does not start with a backtick. *)
Lemma replace_from_close_free (s t : string) :
  free_of "`" s = true ->
  match t with String "`" _ => False | _ => True end ->
  replace_from fence_close EmptyString 0 (s +:+ t)
  = s +:+ replace_from fence_close EmptyString 0 t.
Proof.
  intros Hs Ht. induction s as [| c s IH]; [reflexivity |].
  rewrite !append_cons. cbn [free_of] in Hs.
  apply andb_true_iff in Hs as [Hc Hs].
  destruct (decide (c = "`"%char)) as [| Hne]; [discriminate |].
  cbn [replace_from]. rewrite <- (IH Hs).
  replace (String.prefix fence_close (String c (s +:+ t))) with false; [reflexivity |].
  symmetry. unfold fence_close, nl. rewrite append_cons, append_nil.
  cbn [String.prefix]. destruct (ascii_dec "010" c) as [<- | _]; [| reflexivity].
  destruct s as [| d s].
  - rewrite append_nil. destruct t as [| d t]; [reflexivity |].
    cbn [String.prefix]. destruct (ascii_dec "`" d) as [<- | _]; [contradiction | reflexivity].
  - rewrite append_cons. cbn [String.prefix free_of] in *.
    destruct (decide (d = "`"%char)) as [-> | Hd]; [discriminate |].
    destruct (ascii_dec "`" d) as [<- | _]; [contradiction | reflexivity].
Qed.

Lemma strip_fenced (s : string) :
  strip (fence_open +:+ s +:+ fence_close) = fence_open +:+ s +:+ fence_close.
Proof.
  unfold strip.
  replace (lstrip (fence_open +:+ s +:+ fence_close)) with (fence_open +:+ s +:+ fence_close)
    by reflexivity.
  replace (fence_open +:+ s +:+ fence_close)
    with ((fence_open +:+ s +:+ String "010" "``") +:+ String "`" EmptyString).
  - now apply rstrip_ends_nonspace.
  - rewrite !append_assoc_string. reflexivity.
Qed.

Lemma prefix_append (old rest : string) : String.prefix old (old +:+ rest) = true.
Proof.
  induction old as [| c old IH].
  - rewrite append_nil. now destruct rest.
  - rewrite append_cons. cbn [String.prefix].
    destruct (ascii_dec c c); [exact IH | contradiction].
Qed.

Lemma replace_from_skip (old new t rest : string) :
  replace_from old new (String.length t) (t +:+ rest) = replace_from old new 0 rest.
Proof.
  induction t as [| c t IH]; [reflexivity |]. rewrite append_cons. exact IH.
Qed.

(** A match at the head of the string: the replacement, then the scan of
    what follows the match. *)
Lemma replace_from_match (c : ascii) (old new rest : string) :
  replace_from (String c old) new 0 (String c old +:+ rest)
  = new +:+ replace_from (String c old) new 0 rest.
Proof.
  rewrite <- (replace_from_skip (String c old) new old rest).
  rewrite append_cons. cbn [replace_from].
  rewrite <- append_cons, prefix_append.
  cbn [String.length].
  replace (S (String.length old) - 1)%nat with (String.length old) by lia.
  reflexivity.
Qed.

Section FenceProperties.
Import app.

Lemma strip_code_fence_fenced (s : string) :
  free_of "`" s = true -> strip_code_fence (fence_open +:+ s +:+ fence_close) = s.
Proof.
  intros Hs. unfold strip_code_fence. rewrite strip_fenced.
  change ("```json" +:+ nl) with fence_open. change (nl +:+ "```") with fence_close.
  unfold replace.
  change fence_open with (String "`" ("``json" +:+ nl)).
  rewrite replace_from_match, append_nil.
  rewrite replace_from_free by assumption.
  replace (replace_from _ EmptyString 0 fence_close) with fence_close by reflexivity.
  rewrite replace_from_close_free by (assumption || exact I).
  apply append_empty_r.
Qed.

Lemma strip_code_fence_plain (s : string) :
  free_of "`" s = true -> strip_code_fence s = strip s.
Proof.
  intros Hs. unfold strip_code_fence.
  assert (Hfree : free_of "`" (strip s) = true)
    by (unfold strip; now apply free_of_rstrip, free_of_lstrip).
  change ("```json" +:+ nl) with (String "`" ("``json" +:+ nl)).
  rewrite replace_free by assumption.
  change (nl +:+ "```") with fence_close. unfold replace.
  rewrite <- (append_empty_r (strip s)) at 1.
  rewrite replace_from_close_free by (assumption || exact I).
  apply append_empty_r.
Qed.

Lemma strip_code_fence_block (ws1 s ws2 : string) :
  all_space ws1 = true -> all_space ws2 = true -> free_of "`" s = true ->
  strip_code_fence (ws1 +:+ (fence_open +:+ s +:+ fence_close) +:+ ws2) = s.
Proof.
  intros H1 H2 Hs. unfold strip_code_fence. rewrite strip_surrounding_space by assumption.
  now apply strip_code_fence_fenced.
Qed.

(** X1.  What the code-fence removal of [extract_query_entities] does to a
    reply whose payload holds no backtick: a payload between the opening
    and the closing fence comes back exactly, whatever whitespace surrounds
    the block; a reply without fence is trimmed and nothing else. *)
Theorem strip_code_fence_round_trip (ws1 s ws2 : string) :
  all_space ws1 = true -> all_space ws2 = true -> free_of "`" s = true ->
  strip_code_fence (ws1 +:+ (fence_open +:+ s +:+ fence_close) +:+ ws2) = s
  /\ strip_code_fence (ws1 +:+ s +:+ ws2) = strip s.
Proof.
  intros H1 H2 Hs. split.
  - now apply strip_code_fence_block.
  - unfold strip_code_fence at 1. rewrite strip_surrounding_space by assumption.
    now apply strip_code_fence_plain.
Qed.
End FenceProperties.

(** ** The conversation history *)

Section Framing.
Context {L : Type}.

Lemma keeps_ret {A} (a : A) : keeps_session (ret (L := L) a).
Proof. intros w. reflexivity. Qed.

Lemma keeps_raise {A} (e : exn) : keeps_session (raise (L := L) (A := A) e).
Proof. intros w. reflexivity. Qed.

Lemma keeps_emit (ev : event) : keeps_session (emit (L := L) ev).
Proof. intros w. reflexivity. Qed.

Lemma keeps_call {A} (ev : event) (f : L -> result A * L) : keeps_session (call ev f).
Proof. intros w. unfold call. now destruct (f (lib w)). Qed.

Lemma keeps_bind {A B} (m : M L A) (k : A -> M L B) :
  keeps_session m -> (forall a, keeps_session (k a)) -> keeps_session (bind m k).
Proof.
  intros Hm Hk w. unfold bind. specialize (Hm w).
  destruct (m w) as [[a | e] w1]; cbn in Hm; [| exact Hm].
  now rewrite (Hk a w1).
Qed.

Lemma keeps_try {A} (body : M L A) (handler : exn -> M L A) :
  keeps_session body -> (forall e, keeps_session (handler e)) ->
  keeps_session (try_except body handler).
Proof.
  intros Hm Hk w. unfold try_except. specialize (Hm w).
  destruct (body w) as [[a | e] w1]; cbn in Hm; [exact Hm |].
  now rewrite (Hk e w1).
Qed.
End Framing.

(** Proves [keeps_session] for a computation built from the combinators. *)
Ltac framing :=
  repeat first
    [ apply keeps_ret
    | apply keeps_raise
    | apply keeps_emit
    | apply keeps_call
    | apply keeps_bind; [| intros ?]
    | apply keeps_try; [| intros ?]
    | match goal with
      | |- keeps_session (if ?b then _ else _) => destruct b
      | |- keeps_session (match ?x with _ => _ end) => destruct x
      end ].

Section SessionProperties.
Context (cfg : Config) (env : Collaborators).
Import app.

Lemma get_company_web_content_keeps company kw :
  keeps_session (external_info_retriever.get_company_web_content cfg env company kw).
Proof.
  unfold external_info_retriever.get_company_web_content,
    external_info_retriever.provider_call, print.
  framing.
Qed.

Lemma get_rag_answer_keeps q docs h :
  keeps_session (llm_rag_service.get_rag_answer cfg env q docs h).
Proof.
  unfold llm_rag_service.get_rag_answer, llm_rag_service.rag_chain,
    llm_rag_service.create_retrieval_chain, llm_rag_service.create_stuff_documents_chain,
    llm_rag_service.as_retriever, print.
  framing.
Qed.

Lemma extract_query_entities_keeps query : keeps_session (extract_query_entities env query).
Proof.
  intros w.
  unfold extract_query_entities, extraction_try, st_warning, st_error, bind, call, emit,
    ret, raise.
  destruct (extraction_chain_ainvoke env query (lib w)) as [[raw | e] st]; cbn [fst].
  - now destruct (json_loads env (strip_code_fence raw)) as [[d |] | msg].
  - now destruct (is_JSONDecodeError e).
Qed.

Lemma respond_keeps prompt history cn sk :
  keeps_session (respond cfg env prompt history cn sk).
Proof.
  unfold respond, rag_branch, st_info, st_success.
  repeat match goal with
         | |- keeps_session (if ?b then _ else _) => destruct b
         end; try solve [framing].
  apply keeps_bind; [framing |]. intros _.
  apply keeps_bind; [apply get_company_web_content_keeps |]. intros docs.
  destruct (decide (docs = [])); [framing |].
  apply keeps_bind; [framing |]. intros _. apply get_rag_answer_keeps.
Qed.

(** X9.  Only the orchestrator writes the conversation history: the
    retriever, the synthesizer, the entity extraction and the branch that
    computes the reply all leave [st.session_state.messages] as they found
    it, whether they return, fall back or raise. *)
Theorem components_keep_conversation_history :
  (forall company kw,
     keeps_session (external_info_retriever.get_company_web_content cfg env company kw))
  /\ (forall q docs h, keeps_session (llm_rag_service.get_rag_answer cfg env q docs h))
  /\ (forall query, keeps_session (extract_query_entities env query))
  /\ (forall prompt history cn sk, keeps_session (respond cfg env prompt history cn sk)).
Proof.
  split; [exact get_company_web_content_keeps |].
  split; [exact get_rag_answer_keeps |].
  split; [exact extract_query_entities_keeps | exact respond_keeps].
Qed.

Lemma respond_total prompt history cn sk (w : world (lib_state env)) :
  exists reply, outcome (respond cfg env prompt history cn sk w) = Ok reply.
Proof.
  unfold respond.
  repeat match goal with
         | |- context [ if ?b then _ else _ ] => destruct b
         end; try (eexists; reflexivity).
  rewrite rag_branch_unfold.
  destruct (get_company_web_content_total cfg env (py_str cn) (py_str sk)
              (final (st_info env (info_searching cn sk) w))) as [docs Hdocs].
  unfold outcome in Hdocs.
  destruct (external_info_retriever.get_company_web_content _ _ _ _ _) as [[d | e] w2];
    cbn in Hdocs; [| discriminate].
  destruct (decide (d = [])); [eexists; reflexivity |].
  apply get_rag_answer_total.
Qed.

Lemma langchain_messages_of_app (a b : list chat_entry) :
  langchain_messages_of (a ++ b) = langchain_messages_of a ++ langchain_messages_of b.
Proof.
  unfold langchain_messages_of. rewrite fold_left_app.
  generalize (fold_left
                (fun langchain_messages msg =>
                   if decide (role msg = "user") then
                     langchain_messages ++ [HumanMessage (content msg)]
                   else if decide (role msg = "assistant") then
                     langchain_messages ++ [AIMessage (content msg)]
                   else langchain_messages) a []).
  induction b as [| m b IH]; intros acc; cbn [fold_left].
  - now rewrite app_nil_r.
  - rewrite IH. rewrite (IH (if decide (role m = "user") then _ else _)).
    destruct (decide (role m = "user")); [now rewrite <- app_assoc |].
    destruct (decide (role m = "assistant")); [now rewrite <- app_assoc |].
    reflexivity.
Qed.

Lemma handle_prompt_unfold prompt (w : world (lib_state env)) :
  handle_prompt cfg env prompt w
  = match extract_query_entities env prompt
            (mkWorld (lib w) (log w ++ [StMarkdown prompt])
               (session_messages w ++ [mkEntry "user" prompt])) with
    | (Ok entities, w4) =>
        match respond cfg env prompt
                (langchain_messages_of (session_messages w ++ [mkEntry "user" prompt]))
                (fst entities) (snd entities) w4 with
        | (Ok reply, w5) =>
            (Ok tt, mkWorld (lib w5) (log w5 ++ [StMarkdown reply])
                      (session_messages w5 ++ [mkEntry "assistant" reply]))
        | (Raise e, w5) => (Raise e, w5)
        end
    | (Raise e, w4) => (Raise e, w4)
    end.
Proof.
  unfold handle_prompt.
  unfold bind at 1, append_message at 1. unfold bind at 1, st_markdown at 1, emit at 1.
  unfold bind at 1, get_langchain_chat_history, read_messages.
  unfold bind at 1, ret at 1. cbn [lib log session_messages].
  unfold bind at 1. unfold langchain_messages_of.
  destruct (extract_query_entities env prompt _) as [[entities | e] w4]; [| reflexivity].
  unfold bind at 1.
  destruct (respond cfg env prompt _ (fst entities) (snd entities) w4) as [[reply | e] w5];
    reflexivity.
Qed.
End SessionProperties.

Section TurnHistory.
Context (cfg : Config) (env : Collaborators).
Import app.

Lemma rendered_app (evs evs' : list event) :
  rendered (evs ++ evs') = rendered evs ++ rendered evs'.
Proof. apply omap_app. Qed.

Lemma respond_log prompt history cn sk (w : world (lib_state env)) :
  exists evs, log (final (respond cfg env prompt history cn sk w)) = log w ++ evs.
Proof.
  destruct (respond_emits cfg env prompt history cn sk w) as [evs [Hevs _]]. now exists evs.
Qed.

(** X5.  One turn and the conversation history.  A turn that returns has
    appended exactly two entries to the session, the user's prompt and then
    the assistant's reply, and the reply it appended is the last text it
    rendered.  A turn that ends in an exception has appended the prompt
    alone.  In both cases the earlier entries are untouched. *)
Theorem handle_prompt_appends_turn prompt (w : world (lib_state env)) :
  (forall u,
     outcome (handle_prompt cfg env prompt w) = Ok u ->
     exists reply,
       session_messages (final (handle_prompt cfg env prompt w))
       = session_messages w ++ [mkEntry "user" prompt; mkEntry "assistant" reply]
       /\ last (rendered (new_events w (handle_prompt cfg env prompt w))) = Some reply)
  /\ (forall e,
        outcome (handle_prompt cfg env prompt w) = Raise e ->
        session_messages (final (handle_prompt cfg env prompt w))
        = session_messages w ++ [mkEntry "user" prompt]).
Proof.
  rewrite handle_prompt_unfold.
  set (w3 := mkWorld (lib w) (log w ++ [StMarkdown prompt])
               (session_messages w ++ [mkEntry "user" prompt])).
  pose proof (extract_query_entities_keeps env prompt w3) as Hkeep.
  destruct (extract_query_entities_log env prompt w3) as [evs Hevs].
  destruct (extract_query_entities env prompt w3) as [[entities | e] w4];
    cbn [final snd] in Hkeep, Hevs.
  - set (h := langchain_messages_of _).
    pose proof (respond_keeps cfg env prompt h (fst entities) (snd entities) w4) as Hkeep'.
    destruct (respond_log prompt h (fst entities) (snd entities) w4) as [evs' Hevs'].
    destruct (respond_total cfg env prompt h (fst entities) (snd entities) w4)
      as [reply Hreply].
    unfold outcome in Hreply.
    destruct (respond cfg env prompt h (fst entities) (snd entities) w4) as [[r | e] w5];
      cbn [fst final snd] in Hreply, Hkeep', Hevs'; [| discriminate].
    split; [| discriminate].
    intros _ _. exists r. cbn [final snd session_messages]. split.
    + rewrite Hkeep', Hkeep. cbn [w3 session_messages]. now rewrite <- app_assoc.
    + erewrite new_events_of_log
        by (cbn [final snd log]; rewrite Hevs', Hevs; cbn [log w3];
            rewrite <- !app_assoc; reflexivity).
      rewrite !rendered_app. cbn [rendered omap]. rewrite !app_assoc. apply last_snoc.
  - split; [discriminate |]. intros e' _. cbn [final snd]. now rewrite Hkeep.
Qed.

Lemma extract_query_entities_emits (P : event -> Prop) query :
  (forall q, P (EvExtraction q)) -> (forall t, P (StWarning t)) -> (forall t, P (StError t)) ->
  emits P (extract_query_entities env query).
Proof.
  intros Hq Hw He w.
  unfold extract_query_entities, extraction_try, st_warning, st_error, bind, call, emit,
    ret, raise.
  destruct (extraction_chain_ainvoke env query (lib w)) as [[raw | e] st];
    cbn [lib fst log].
  - destruct (json_loads env (strip_code_fence raw)) as [[d |] | msg]; cbn;
      eexists; (split; [rewrite <- ?app_assoc; reflexivity |]); repeat constructor; auto.
  - destruct (is_JSONDecodeError e); cbn;
      eexists; (split; [rewrite <- ?app_assoc; reflexivity |]); repeat constructor; auto.
Qed.

(** Whatever [P] holds of the rendering, of the extraction events and of
    the events of the reply computed on the history with the prompt
    appended, holds of every event of the turn. *)
Lemma handle_prompt_events (P : event -> Prop) prompt (w : world (lib_state env)) :
  (forall t, P (StMarkdown t)) ->
  (forall q, P (EvExtraction q)) -> (forall t, P (StWarning t)) -> (forall t, P (StError t)) ->
  (forall cn sk,
     emits P (respond cfg env prompt
                (langchain_messages_of (session_messages w) ++ [HumanMessage prompt])
                cn sk)) ->
  Forall P (new_events w (handle_prompt cfg env prompt w)).
Proof.
  intros Hm Hq Hw He Hr. rewrite handle_prompt_unfold.
  replace (langchain_messages_of (session_messages w ++ [mkEntry "user" prompt]))
    with (langchain_messages_of (session_messages w) ++ [HumanMessage prompt])
    by (now rewrite langchain_messages_of_app).
  set (w3 := mkWorld (lib w) (log w ++ [StMarkdown prompt])
               (session_messages w ++ [mkEntry "user" prompt])).
  destruct (extract_query_entities_emits P prompt Hq Hw He w3) as [evs [Hevs HP]].
  destruct (extract_query_entities env prompt w3) as [[entities | e] w4];
    cbn [final snd] in Hevs.
  - destruct (Hr (fst entities) (snd entities) w4) as [evs' [Hevs' HP']].
    destruct (respond cfg env prompt _ (fst entities) (snd entities) w4) as [[r | e] w5];
      cbn [final snd] in Hevs';
      erewrite new_events_of_log
        by (cbn [final snd log]; rewrite Hevs', Hevs; cbn [log w3];
            rewrite <- !app_assoc; reflexivity);
      repeat (apply Forall_app; split); auto; repeat constructor; auto.
  - erewrite new_events_of_log
      by (cbn [final snd]; rewrite Hevs; cbn [log w3]; rewrite <- !app_assoc; reflexivity).
    apply Forall_app; split; [repeat constructor; auto | exact HP].
Qed.
End TurnHistory.

Section ReplyEvents.
Context (cfg : Config) (env : Collaborators).
Import app.

Lemma emits_of_new_events {L A} (P : event -> Prop) (m : M L A) :
  (forall w, exists evs, log (final (m w)) = log w ++ evs) ->
  (forall w, Forall P (new_events w (m w))) ->
  emits P m.
Proof.
  intros Hlog HP w. destruct (Hlog w) as [evs Hevs]. exists evs. split; [exact Hevs |].
  specialize (HP w). now rewrite (new_events_of_log w (m w) evs Hevs) in HP.
Qed.

Lemma get_company_web_content_events (P : event -> Prop) company kw :
  (forall a v k, P (EvBuild a v k)) -> (forall q cx n, P (EvCseList q cx n)) ->
  (forall line, P (EvPrint line)) ->
  emits P (external_info_retriever.get_company_web_content cfg env company kw).
Proof.
  intros Hb Hc Hp.
  unfold external_info_retriever.get_company_web_content,
    external_info_retriever.provider_call, print.
  repeat first
    [ apply emits_ret
    | apply emits_emit; auto
    | apply emits_call; auto
    | apply emits_bind; [| intros ?]
    | apply emits_try; [| intros ?]
    | match goal with
      | |- emits _ (if ?b then _ else _) => destruct b
      end ].
Qed.

(** The events of the reply: those of the branch it takes.  Outside the
    retrieval branch there are none; inside, the [st.info] line, the events
    of the search and, when the search returned documents, the
    [st.success] line and the events of the synthesizer on exactly those
    documents. *)
Lemma respond_events (P : event -> Prop) prompt history cn sk (w : world (lib_state env)) :
  (forall t, P (StInfo t)) -> (forall t, P (StSuccess t)) ->
  (forall a v k, P (EvBuild a v k)) -> (forall q cx n, P (EvCseList q cx n)) ->
  (forall line, P (EvPrint line)) ->
  (forall docs w',
     docs <> [] ->
     outcome (external_info_retriever.get_company_web_content cfg env (py_str cn) (py_str sk)
                (final (st_info env (info_searching cn sk) w))) = Ok docs ->
     Forall P (new_events w' (llm_rag_service.get_rag_answer cfg env prompt docs history w'))) ->
  Forall P (new_events w (respond cfg env prompt history cn sk w)).
Proof.
  intros Hi Hs Hb Hc Hp Hrag. unfold respond.
  repeat match goal with
         | |- context [ if ?b then _ else _ ] => destruct b
         end; try (unfold ret; rewrite new_events_unchanged; constructor).
  rewrite rag_branch_unfold.
  set (w1 := final (st_info env (info_searching cn sk) w)) in *.
  destruct (get_company_web_content_events P (py_str cn) (py_str sk) Hb Hc Hp w1)
    as [evs [Hevs HP]].
  unfold outcome in Hrag.
  destruct (external_info_retriever.get_company_web_content _ _ _ _ w1) as [[docs | e] w2];
    cbn [final snd fst] in Hevs, Hrag.
  - destruct (decide (docs = [])) as [-> | Hne].
    + erewrite new_events_of_log
        by (cbn [final snd]; rewrite Hevs; cbn; rewrite <- !app_assoc; reflexivity).
      constructor; auto.
    + set (w' := final (st_success env (info_found docs) w2)).
      specialize (Hrag docs w' Hne eq_refl).
      destruct (get_rag_answer_emits cfg env prompt docs history w') as [evs' [Hevs' _]].
      rewrite (new_events_of_log w' _ evs' Hevs') in Hrag.
      erewrite new_events_of_log
        by (rewrite Hevs'; cbn [w' final snd st_success emit log]; rewrite Hevs; cbn;
            rewrite <- !app_assoc; reflexivity).
      constructor; auto. apply Forall_app; split; [exact HP |].
      constructor; auto.
  - erewrite new_events_of_log
      by (cbn [final snd]; rewrite Hevs; cbn; rewrite <- !app_assoc; reflexivity).
    constructor; auto.
Qed.


Lemma get_rag_answer_prompt_shape q docs h :
  emits (fun ev => match ev with
                   | EvComplete p => exists ctx, p = llm_rag_service.qa_prompt ctx h q
                   | _ => True
                   end)
    (llm_rag_service.get_rag_answer cfg env q docs h).
Proof.
  unfold llm_rag_service.get_rag_answer, llm_rag_service.rag_chain,
    llm_rag_service.create_retrieval_chain, llm_rag_service.create_stuff_documents_chain,
    llm_rag_service.as_retriever, print.
  repeat first
    [ apply emits_ret
    | apply emits_emit; exact I
    | apply emits_call; first [exact I | eexists; reflexivity]
    | apply emits_bind; [| intros ?]
    | apply emits_try; [| intros ?]
    | match goal with
      | |- emits _ (if ?b then _ else _) => destruct b
      end ].
Qed.

(** X6.  The history a turn passes to the synthesizer already ends with the
    prompt of that turn: the prompt is appended to the session before the
    history is read.  Every completion prompt of the turn is therefore the
    system message, the earlier conversation, the prompt as the last
    message of the history, and the prompt once more as the question. *)
Theorem turn_history_ends_with_prompt prompt (w : world (lib_state env)) :
  Forall
    (fun ev =>
       match ev with
       | EvComplete p =>
           exists ctx,
             p = [SystemMessage (llm_rag_service.system_instruction +:+ ctx)]
                 ++ langchain_messages_of (session_messages w)
                 ++ [HumanMessage prompt; HumanMessage prompt]
       | _ => True
       end)
    (new_events w (handle_prompt cfg env prompt w)).
Proof.
  apply handle_prompt_events; try (intros; exact I).
  intros cn sk. apply emits_of_new_events; [apply respond_log |].
  intros w'. apply respond_events; try (intros; exact I).
  intros docs w'' _ _.
  eapply Forall_impl;
    [apply emits_new_events, (get_rag_answer_prompt_shape prompt docs) |].
  intros [] H; try exact I. cbn in H. destruct H as [ctx ->]. exists ctx.
  unfold llm_rag_service.qa_prompt. now rewrite <- !app_assoc.
Qed.
End ReplyEvents.

Section HistoryConversion.
Context (env : Collaborators).
Import app.

Lemma langchain_messages_of_cons (m : chat_entry) (msgs : list chat_entry) :
  langchain_messages_of (m :: msgs)
  = (if decide (role m = "user") then [HumanMessage (content m)]
     else if decide (role m = "assistant") then [AIMessage (content m)]
     else [])
    ++ langchain_messages_of msgs.
Proof.
  change (m :: msgs) with ([m] ++ msgs). rewrite langchain_messages_of_app.
  f_equal.
Qed.

Lemma langchain_messages_text (msgs : list chat_entry) :
  Forall (fun m => role m = "user" \/ role m = "assistant") msgs ->
  map message_text (langchain_messages_of msgs) = map content msgs.
Proof.
  induction 1 as [| m msgs Hm _ IH]; [reflexivity |].
  rewrite langchain_messages_of_cons, map_app, IH. cbn [map].
  destruct (decide (role m = "user")); [reflexivity |].
  destruct (decide (role m = "assistant")); [reflexivity |].
  destruct Hm; contradiction.
Qed.

Lemma langchain_messages_skip (msgs : list chat_entry) :
  Forall (fun m => role m <> "user" /\ role m <> "assistant") msgs ->
  langchain_messages_of msgs = [].
Proof.
  induction 1 as [| m msgs [Hu Ha] _ IH]; [reflexivity |].
  rewrite langchain_messages_of_cons, IH.
  destruct (decide (role m = "user")); [contradiction |].
  destruct (decide (role m = "assistant")); [contradiction | reflexivity].
Qed.

(** X7.  [get_langchain_chat_history] reads the session and changes
    nothing.  It converts the entries in order, entry by entry: the
    conversion of a concatenation is the concatenation of the conversions.
    A session that holds user and assistant entries only gives one message
    per entry with the same text, a user entry as a human message and an
    assistant entry as an AI message; entries with any other role are
    dropped. *)
Theorem get_langchain_chat_history_converts (w : world (lib_state env)) :
  get_langchain_chat_history env w = (Ok (langchain_messages_of (session_messages w)), w)
  /\ (forall a b,
        langchain_messages_of (a ++ b) = langchain_messages_of a ++ langchain_messages_of b)
  /\ (forall c, langchain_messages_of [mkEntry "user" c] = [HumanMessage c])
  /\ (forall c, langchain_messages_of [mkEntry "assistant" c] = [AIMessage c])
  /\ (forall msgs,
        Forall (fun m => role m = "user" \/ role m = "assistant") msgs ->
        map message_text (langchain_messages_of msgs) = map content msgs)
  /\ (forall msgs,
        Forall (fun m => role m <> "user" /\ role m <> "assistant") msgs ->
        langchain_messages_of msgs = []).
Proof.
  split; [reflexivity |].
  split; [apply langchain_messages_of_app |].
  split; [reflexivity |]. split; [reflexivity |].
  split; [apply langchain_messages_text | apply langchain_messages_skip].
Qed.
End HistoryConversion.

Section Grounding.
Context (cfg : Config) (env : Collaborators).
Import llm_rag_service.

End Grounding.

(** ** The script, the extraction and the page fetcher *)

Section ScriptRun.
Context (cfg : Config) (env : Collaborators).
Import app.



End ScriptRun.

Section ExtractionOutcomes.
Context (env : Collaborators).
Import app.

(** X2.  How [extract_query_entities] degrades.  A reply that
    [json.loads] rejects gives (None, None) and one [st.warning] that
    quotes the reply without its fence; a reply that decodes to something
    other than an object, and a completion call that raises anything but a
    [JSONDecodeError], give (None, None) and one [st.error].  In every
    case the extraction chain has been invoked exactly once, with the
    query. *)
Theorem extract_query_entities_degrades query (w : world (lib_state env)) :
  (forall raw st msg,
     extraction_chain_ainvoke env query (lib w) = (Ok raw, st) ->
     json_loads env (strip_code_fence raw) = inr msg ->
     extract_query_entities env query w
     = (Ok (None, None),
        mkWorld st
          (log w ++ [EvExtraction query;
                     StWarning ("Could not parse entity extraction response: "
                                  +:+ strip_code_fence raw +:+ ". Error: " +:+ msg)])
          (session_messages w)))
  /\ (forall raw st,
        extraction_chain_ainvoke env query (lib w) = (Ok raw, st) ->
        json_loads env (strip_code_fence raw) = inl JOther ->
        exists text,
          extract_query_entities env query w
          = (Ok (None, None),
             mkWorld st (log w ++ [EvExtraction query; StError text]) (session_messages w)))
  /\ (forall e st,
        extraction_chain_ainvoke env query (lib w) = (Raise e, st) ->
        is_JSONDecodeError e = false ->
        extract_query_entities env query w
        = (Ok (None, None),
           mkWorld st
             (log w ++ [EvExtraction query;
                        StError ("Error during entity extraction: " +:+ exn_msg e)])
             (session_messages w)))
  /\ extraction_calls (new_events w (extract_query_entities env query w)) = [query].
Proof.
  split; [intros raw st msg; apply extract_query_entities_malformed |].
  split.
  { intros raw st Hc Hj.
    destruct (extract_query_entities_not_object env query w raw st Hc Hj) as [e He].
    now exists (error_extraction e). }
  split; [intros e st; apply extract_query_entities_fault |].
  apply extract_query_entities_one_call.
Qed.

(** X3.  A fenced reply is decoded as its payload.  When the chain replies
    with a JSON block between the opening and the closing fence, with any
    whitespace around it and no backtick inside, [json.loads] receives the
    payload alone; if that is an object the result is its [company_name]
    and [service_keywords], a missing key and a null both giving None, and
    nothing is shown to the user. *)
Theorem extract_query_entities_fenced_reply
    query (w : world (lib_state env)) ws1 payload ws2 st d :
  all_space ws1 = true -> all_space ws2 = true -> free_of "`" payload = true ->
  extraction_chain_ainvoke env query (lib w)
  = (Ok (ws1 +:+ (fence_open +:+ payload +:+ fence_close) +:+ ws2), st) ->
  json_loads env payload = inl (JObject d) ->
  extract_query_entities env query w
  = (Ok (entities_get d "company_name", entities_get d "service_keywords"),
     mkWorld st (log w ++ [EvExtraction query]) (session_messages w))
  /\ (forall key,
        d !! key = None \/ d !! key = Some None <-> entities_get d key = None).
Proof.
  intros H1 H2 Hp Hc Hj. split.
  - apply (extract_query_entities_parsed env query w _ st d Hc).
    now rewrite (strip_code_fence_block ws1 payload ws2 H1 H2 Hp).
  - intros key. unfold entities_get. destruct (d !! key) as [[v |] |]; cbn.
    + split; [intros [H | H]; discriminate | discriminate].
    + split; [reflexivity | now right].
    + split; [reflexivity | now left].
Qed.
End ExtractionOutcomes.

Section PageFetcher.
Context (web : external_info_retriever.PageCollaborators).
Import external_info_retriever.

Lemma raise_for_status_cases (response : http_response) (w : world (web_state web)) :
  ((400 <= status_code response < 600)%Z ->
   exists e, raise_for_status response w = (Raise e, w) /\ is_RequestException e = true)
  /\ (~ (400 <= status_code response < 600)%Z -> raise_for_status response w = (Ok tt, w)).
Proof.
  unfold raise_for_status.
  destruct ((400 <=? status_code response)%Z && (status_code response <? 500)%Z) eqn:E4;
    [| destruct ((500 <=? status_code response)%Z && (status_code response <? 600)%Z) eqn:E5].
  - split; [intros _; eexists; split; reflexivity | lia].
  - split; [intros _; eexists; split; reflexivity | lia].
  - split; [lia | reflexivity].
Qed.

Lemma fetch_full_page_content_total url (w : world (web_state web)) :
  exists text, outcome (_fetch_full_page_content web url w) = Ok text.
Proof.
  unfold _fetch_full_page_content, try_except.
  destruct (fetch_page_try web url w) as [[text | e] w1]; [eexists; reflexivity |].
  destruct (is_RequestException e); eexists; reflexivity.
Qed.

(** X12.  [_fetch_full_page_content] never raises, and a page that could
    not be fetched or parsed gives the empty string.  When
    [requests.get] raises, the result is the empty string and one line is
    printed.  When the response carries a status from 400 to 599, the
    result is the empty string, the line printed is the "Error fetching"
    one, and the HTML library has not been used: the state is the one the
    request left.  When the parser raises, the result is the empty string
    as well. *)
Theorem fetch_full_page_content_degrades url (w : world (web_state web)) :
  (exists text, outcome (_fetch_full_page_content web url w) = Ok text)
  /\ (forall e st,
        requests_get web url (<["User-Agent" := "Mozilla/5.0"]> ∅) 10 (lib w) = (Raise e, st) ->
        outcome (_fetch_full_page_content web url w) = Ok EmptyString
        /\ length (printed (new_events w (_fetch_full_page_content web url w))) = 1%nat)
  /\ (forall response st,
        requests_get web url (<["User-Agent" := "Mozilla/5.0"]> ∅) 10 (lib w)
        = (Ok response, st) ->
        (400 <= status_code response < 600)%Z ->
        exists detail,
          _fetch_full_page_content web url w
          = (Ok EmptyString,
             mkWorld st
               (log w ++ [EvPrint ("Error fetching full page content from " +:+ url
                                     +:+ ": " +:+ detail)])
               (session_messages w)))
  /\ (forall response st e st',
        requests_get web url (<["User-Agent" := "Mozilla/5.0"]> ∅) 10 (lib w)
        = (Ok response, st) ->
        ~ (400 <= status_code response < 600)%Z ->
        BeautifulSoup web (response_text response) "html.parser" st = (Raise e, st') ->
        outcome (_fetch_full_page_content web url w) = Ok EmptyString).
Proof.
  split; [apply fetch_full_page_content_total |].
  split; [| split].
  - intros e st Hget.
    unfold _fetch_full_page_content, try_except, fetch_page_try, bind, invoke, print, emit,
      ret.
    rewrite Hget; cbn [lib fst].
    destruct (is_RequestException e); cbn;
      (split; [reflexivity |]);
      erewrite new_events_of_log by (cbn; reflexivity); reflexivity.
  - intros response st Hget Hstatus.
    unfold _fetch_full_page_content, try_except, fetch_page_try.
    unfold bind at 1, invoke at 1. rewrite Hget; cbn [lib fst]. unfold bind at 1.
    destruct (proj1 (raise_for_status_cases response
                       (mkWorld st (log w) (session_messages w))) Hstatus)
      as [e [-> He]].
    rewrite He. exists (exn_msg e). reflexivity.
  - intros response st e st' Hget Hstatus Hparse.
    unfold _fetch_full_page_content, try_except, fetch_page_try.
    unfold bind at 1, invoke at 1. rewrite Hget; cbn [lib fst]. unfold bind at 1.
    rewrite (proj2 (raise_for_status_cases response
                      (mkWorld st (log w) (session_messages w))) Hstatus).
    unfold bind at 1, invoke at 1. cbn [lib]. rewrite Hparse.
    now destruct (is_RequestException e).
Qed.
End PageFetcher.

Section Diagnostics.
Context (cfg : Config) (env : Collaborators).
Import external_info_retriever llm_rag_service.

Lemma rag_chain_log q docs h (w : world (lib_state env)) :
  exists evs, log (final (rag_chain cfg env q docs h w)) = log w ++ evs.
Proof.
  assert (H : emits (fun _ => True) (rag_chain cfg env q docs h)).
  { unfold rag_chain, create_retrieval_chain, create_stuff_documents_chain, as_retriever.
    emitting. }
  destruct (H w) as [evs [Hevs _]]. now exists evs.
Qed.

Lemma provider_call_log q (w : world (lib_state env)) :
  exists evs, log (final (provider_call cfg env q w)) = log w ++ evs.
Proof.
  assert (H : emits (fun _ => True) (provider_call cfg env q)).
  { unfold provider_call. emitting. }
  destruct (H w) as [evs [Hevs _]]. now exists evs.
Qed.

(** X13.  No fault is swallowed silently.  When the chain of
    [get_rag_answer] raises [e], the function records, after the events of
    the chain, one line that quotes [e] and the traceback of [e], and
    nothing else.  When the provider call of [get_company_web_content]
    raises [e], the function prints, after the events of the call, one line
    that quotes [e]: the "API Error" line for an [HttpError], the
    "unexpected error" line for any other class. *)
Theorem swallowed_faults_are_logged (w : world (lib_state env)) :
  (forall q docs h e,
     py_not (GOOGLE_API_KEY cfg) = false -> docs <> [] ->
     outcome (rag_chain cfg env q docs h w) = Raise e ->
     new_events w (get_rag_answer cfg env q docs h w)
     = new_events w (rag_chain cfg env q docs h w)
       ++ [EvPrint ("An error occurred during RAG processing: " +:+ exn_msg e);
           EvTraceback e])
  /\ (forall company kw e,
        py_not (GOOGLE_CSE_ID cfg) = false ->
        py_not (GOOGLE_API_KEY_FOR_SEARCH cfg) = false ->
        outcome (provider_call cfg env (search_query_of company kw) w) = Raise e ->
        new_events w (get_company_web_content cfg env company kw w)
        = new_events w (provider_call cfg env (search_query_of company kw) w)
          ++ [EvPrint ((if is_HttpError e
                        then "Google Custom Search API Error: "
                        else "An unexpected error occurred during web content retrieval: ")
                         +:+ exn_msg e)]).
Proof.
  split.
  - intros q docs h e Hkey Hdocs Hfault.
    rewrite get_rag_answer_guarded by assumption.
    unfold try_except, bind at 1. unfold outcome in Hfault.
    destruct (rag_chain_log q docs h w) as [evs Hevs].
    rewrite (new_events_of_log w _ evs Hevs).
    destruct (rag_chain cfg env q docs h w) as [[response | e'] w1];
      cbn [fst final snd] in Hfault, Hevs; [discriminate |].
    injection Hfault as ->.
    apply new_events_of_log. cbn. rewrite Hevs. now rewrite <- !app_assoc.
  - intros company kw e Hcx Hkey Hfault.
    unfold get_company_web_content. rewrite Hcx, Hkey. cbn [orb].
    unfold try_except, bind at 1. unfold outcome in Hfault.
    destruct (provider_call_log (search_query_of company kw) w) as [evs Hevs].
    rewrite (new_events_of_log w _ evs Hevs).
    destruct (provider_call cfg env (search_query_of company kw) w) as [[response | e'] w1];
      cbn [fst final snd] in Hfault, Hevs; [discriminate |].
    injection Hfault as ->.
    apply new_events_of_log. destruct (is_HttpError e); cbn; rewrite Hevs;
      now rewrite <- !app_assoc.
Qed.

(** X14.  The successful run of the synthesizer.  With the key configured
    and documents given, when every stage returns, [get_rag_answer]
    returns the reply of the chat model unchanged, and it has made exactly
    these calls in this order: the embedding model with
    "models/embedding-001", the index on the given documents, the chat
    model with "models/gemini-1.5-flash" at temperature 0.2, one retrieval
    of three documents for the question, one completion on the prompt
    built from the retrieved documents. *)
Theorem get_rag_answer_successful_run q docs h (w : world (lib_state env))
    emb st1 vs st2 llm st3 ctx st4 answer st5 :
  py_not (GOOGLE_API_KEY cfg) = false -> docs <> [] ->
  GoogleGenerativeAIEmbeddings env "models/embedding-001" (api_key cfg) (lib w)
  = (Ok emb, st1) ->
  Chroma_from_documents env docs emb st1 = (Ok vs, st2) ->
  ChatGoogleGenerativeAI env "models/gemini-1.5-flash" (api_key cfg) (1 # 5) st2
  = (Ok llm, st3) ->
  similarity_search env vs q 3 st3 = (Ok ctx, st4) ->
  chat_invoke env llm
    (qa_prompt (String.concat (nl +:+ nl) (map page_content ctx)) h q) st4
  = (Ok answer, st5) ->
  get_rag_answer cfg env q docs h w
  = (Ok answer,
     mkWorld st5
       (log w ++ [ EvEmbeddingsInit "models/embedding-001" (api_key cfg);
                   EvFromDocuments docs;
                   EvChatModelInit "models/gemini-1.5-flash" (api_key cfg) (1 # 5);
                   EvRetrieve q 3;
                   EvRetrieved ctx;
                   EvComplete
                     (qa_prompt (String.concat (nl +:+ nl) (map page_content ctx)) h q) ])
       (session_messages w)).
Proof.
  intros Hkey Hdocs H1 H2 H3 H4 H5. rewrite get_rag_answer_guarded by assumption.
  unfold try_except, rag_chain, create_retrieval_chain, create_stuff_documents_chain,
    as_retriever, bind, call, emit, ret;
    cbn [lib log session_messages fst snd input chat_history].
  rewrite H1; cbn [lib log session_messages fst]. rewrite H2; cbn [lib log session_messages fst].
  rewrite H3; cbn [lib log session_messages fst]. rewrite H4; cbn [lib log session_messages fst].
  rewrite H5. cbn [out_answer default]. now rewrite <- !app_assoc.
Qed.
End Diagnostics.

Section ExtractionCount.
Context (cfg : Config) (env : Collaborators).
Import app.



End ExtractionCount.

(** * The further properties on concrete inputs *)

Section FurtherScenarios.
Import external_info_retriever llm_rag_service app.

(** A whole turn on a question about a company and a service, in a
    session that already holds one exchange: the index is built from the
    two documents of the search, and the completion prompt ends with the
    prompt twice. *)
Example turn_with_retrieval :
  completion_prompts
    (new_events world_with_history
       (handle_prompt cfg_all env_company_service "What are Google's cloud services?"
          world_with_history))
  = [ [ SystemMessage
          (system_instruction +:+ "Details about CompanyX cloud." +:+ nl +:+ nl
             +:+ "Information on support tiers.");
        HumanMessage "Hi";
        AIMessage "Hello there!";
        HumanMessage "What are Google's cloud services?";
        HumanMessage "What are Google's cloud services?" ] ]
  /\ session_messages
       (final (handle_prompt cfg_all env_company_service "What are Google's cloud services?"
                 world_with_history))
     = [ mkEntry "user" "Hi"; mkEntry "assistant" "Hello there!";
         mkEntry "user" "What are Google's cloud services?";
         mkEntry "assistant" "Google offers Compute Engine." ]
  /\ extraction_calls
       (new_events world_with_history
          (handle_prompt cfg_all env_company_service "What are Google's cloud services?"
             world_with_history))
     = ["What are Google's cloud services?"].
Proof. repeat split; vm_compute; reflexivity. Qed.

Example script_rerun_without_input :
  new_events world_with_history (script_run cfg_all sample_env None world_with_history)
  = [StMarkdown "Hi"; StMarkdown "Hello there!"].
Proof. vm_compute. reflexivity. Qed.

Example fetch_page_with_body :
  outcome (_fetch_full_page_content (scripted_pages (Ok page_ok) (Ok tt) (Some tt))
             "http://companyx.com/cloud" world0)
  = Ok "Cloud services and support".
Proof. vm_compute. reflexivity. Qed.

Example fetch_page_not_found :
  _fetch_full_page_content (scripted_pages (Ok page_not_found) (Ok tt) (Some tt))
    "http://companyx.com/cloud" world0
  = (Ok EmptyString,
     mkWorld 1%nat
       [ EvPrint ("Error fetching full page content from http://companyx.com/cloud: "
                    +:+ "404 Client Error: Not Found for url: http://companyx.com/cloud") ]
       []).
Proof. vm_compute. reflexivity. Qed.
End FurtherScenarios.

(** X1 on a fenced block with spaces before it and a newline after it. *)
Lemma strip_code_fence_round_trip_witness :
  app.strip_code_fence ("  " +:+ (fence_open +:+ "{Acme}" +:+ fence_close) +:+ nl) = "{Acme}"
  /\ app.strip_code_fence ("  " +:+ "{Acme}" +:+ nl) = strip "{Acme}".
Proof.
  apply (strip_code_fence_round_trip "  " "{Acme}" nl); reflexivity.
Defined.

(** X2 on a reply that is not JSON. *)
Lemma extract_query_entities_degrades_witness :
  app.extract_query_entities env_extraction_garbled "???" world0
  = (Ok (None, None),
     mkWorld 1%nat
       [ EvExtraction "???";
         StWarning ("Could not parse entity extraction response: "
                      +:+ app.strip_code_fence "I am not sure." +:+ ". Error: "
                      +:+ "Expecting value: line 1 column 1 (char 0)") ] []).
Proof.
  apply (proj1 (extract_query_entities_degrades env_extraction_garbled "???" world0)
           "I am not sure." 1%nat "Expecting value: line 1 column 1 (char 0)");
    reflexivity.
Defined.

(** X3 on the fenced reply of the sample collaborators. *)
Lemma extract_query_entities_fenced_reply_witness :
  app.extract_query_entities sample_env "Tell me about Acme" world0
  = (Ok (app.entities_get
           (<["company_name" := Some "Acme"]> (<["service_keywords" := None]> ∅))
           "company_name",
         app.entities_get
           (<["company_name" := Some "Acme"]> (<["service_keywords" := None]> ∅))
           "service_keywords"),
     mkWorld 1%nat ([] ++ [EvExtraction "Tell me about Acme"]) []).
Proof.
  apply (proj1 (extract_query_entities_fenced_reply sample_env "Tell me about Acme" world0
                  EmptyString "{Acme}" EmptyString 1%nat
                  (<["company_name" := Some "Acme"]> (<["service_keywords" := None]> ∅))
                  eq_refl eq_refl eq_refl eq_refl eq_refl)).
Defined.

(** X5 on a turn that returns and on the turn whose extraction raises. *)
Lemma handle_prompt_appends_turn_witness :
  (exists reply,
     session_messages (final (app.handle_prompt cfg_all sample_env "Tell me about Acme"
                                world_with_history))
     = session_messages world_with_history
       ++ [mkEntry "user" "Tell me about Acme"; mkEntry "assistant" reply]
     /\ last (rendered (new_events world_with_history
                          (app.handle_prompt cfg_all sample_env "Tell me about Acme"
                             world_with_history)))
        = Some reply)
  /\ session_messages (final (app.handle_prompt cfg_all env_extraction_json_fault "Hi there!"
                                world_with_history))
     = session_messages world_with_history ++ [mkEntry "user" "Hi there!"].
Proof.
  split.
  - apply (proj1 (handle_prompt_appends_turn cfg_all sample_env "Tell me about Acme"
                    world_with_history) tt).
    vm_compute. reflexivity.
  - apply (proj2 (handle_prompt_appends_turn cfg_all env_extraction_json_fault "Hi there!"
                    world_with_history) app.unbound_json_str).
    vm_compute. reflexivity.
Defined.

(** X7 on the stored exchange. *)
Lemma get_langchain_chat_history_converts_witness :
  map message_text (langchain_messages_of (session_messages world_with_history))
  = map content (session_messages world_with_history).
Proof.
  apply (proj1 (proj2 (proj2 (proj2 (proj2
           (get_langchain_chat_history_converts sample_env world_with_history)))))).
  constructor; [left; reflexivity |].
  constructor; [right; reflexivity | constructor].
Defined.


(** X12 on a page that answers 404. *)
Lemma fetch_full_page_content_degrades_witness :
  exists detail,
    external_info_retriever._fetch_full_page_content
      (scripted_pages (Ok page_not_found) (Ok tt) (Some tt)) "http://companyx.com/cloud" world0
    = (Ok EmptyString,
       mkWorld 1%nat
         (log world0
            ++ [EvPrint ("Error fetching full page content from "
                           +:+ "http://companyx.com/cloud" +:+ ": " +:+ detail)])
         (session_messages world0)).
Proof.
  apply (proj1 (proj2 (proj2 (fetch_full_page_content_degrades
                                (scripted_pages (Ok page_not_found) (Ok tt) (Some tt))
                                "http://companyx.com/cloud" world0)))
           page_not_found 1%nat).
  - reflexivity.
  - cbn. lia.
Defined.

(** X13 on a completion that raises and on a search that raises. *)
Lemma swallowed_faults_are_logged_witness :
  new_events world0
    (llm_rag_service.get_rag_answer cfg_all env_completion_fault "Test question."
       sample_documents [] world0)
  = new_events world0
      (llm_rag_service.rag_chain cfg_all env_completion_fault "Test question."
         sample_documents [] world0)
    ++ [ EvPrint ("An error occurred during RAG processing: "
                    +:+ exn_msg (Exn (OtherException "Exception") "LLM API connection failed"));
         EvTraceback (Exn (OtherException "Exception") "LLM API connection failed") ]
  /\ new_events world0
       (external_info_retriever.get_company_web_content cfg_all env_search_fault
          "CompanyA" "services" world0)
     = new_events world0
         (external_info_retriever.provider_call cfg_all env_search_fault
            (external_info_retriever.search_query_of "CompanyA" "services") world0)
       ++ [ EvPrint ((if is_HttpError (Exn HttpError "403 Forbidden")
                      then "Google Custom Search API Error: "
                      else "An unexpected error occurred during web content retrieval: ")
                       +:+ exn_msg (Exn HttpError "403 Forbidden")) ].
Proof.
  split.
  - apply (proj1 (swallowed_faults_are_logged cfg_all env_completion_fault world0)
             "Test question." sample_documents []
             (Exn (OtherException "Exception") "LLM API connection failed")).
    + reflexivity.
    + discriminate.
    + reflexivity.
  - apply (proj2 (swallowed_faults_are_logged cfg_all env_search_fault world0)
             "CompanyA" "services" (Exn HttpError "403 Forbidden")); reflexivity.
Defined.

(** X14 on the sample collaborators and one document. *)
Lemma get_rag_answer_successful_run_witness :
  outcome (llm_rag_service.get_rag_answer cfg_all sample_env "Test question."
             sample_documents [] world0)
  = Ok "CompanyX offers cloud hosting.".
Proof.
  exact (f_equal fst
           (get_rag_answer_successful_run cfg_all sample_env "Test question."
              sample_documents [] world0 tt 1%nat sample_documents 2%nat tt 3%nat
              sample_documents 4%nat "CompanyX offers cloud hosting." 5%nat
              eq_refl ltac:(discriminate) eq_refl eq_refl eq_refl eq_refl eq_refl)).
Defined.
